(** * RASA: router, knowledge bank tools and agent graph

    A shallow embedding of [main.py] and [custom_tools.py].

    - Python [str] values are modelled as [string]; a character is a code
      point below 256, with [str.lower], [str.strip], [str.split] and the
      [in] operator written out for that range.
    - Python [int] is [Z]; a [dict] is a [gmap]; a [list] is a [list].
    - Exceptions are values of [exn] carried by [result]; the tools, which
      mutate the global [RESEARCH_BANK] and write to a logger, live in a
      small state-and-error monad.
    - The language model, the search tool and the prebuilt tool node are
      collaborators of the program: they are parameters of the section that
      models the graph. *)

From stdpp Require Import gmap strings list fin_maps pretty.
From Stdlib Require Import Ascii ZArith Lia.

Local Open Scope Z_scope.

(** ** Exceptions and results *)

Inductive exn : Type :=
  | IndexError
  | KeyError
  | AttributeError
  | NameError (name : string)
  | ValueError (msg : string).

Inductive result (A : Type) : Type :=
  | Ok (a : A)
  | Raise (e : exn).

Arguments Ok {A} a.
Arguments Raise {A} e.

(** ** Python strings *)

Module PyStr.

Definition LF : string := String "010"%char "".

(** [str.lower] on one code point below 256: A-Z and the upper-case
    letters of Latin-1 (U+00C0-U+00D6, U+00D8-U+00DE) move up by 32. *)
Definition lower_char (c : ascii) : ascii :=
  let n := N_of_ascii c in
  if ((65 <=? n) && (n <=? 90) || (192 <=? n) && (n <=? 214)
      || (216 <=? n) && (n <=? 222))%N
  then ascii_of_N (n + 32) else c.

Fixpoint lower (s : string) : string :=
  match s with
  | EmptyString => EmptyString
  | String c s' => String (lower_char c) (lower s')
  end.

(** [str.isspace] on one code point below 256. *)
Definition isspace (c : ascii) : bool :=
  let n := N_of_ascii c in
  ((9 <=? n) && (n <=? 13) || (28 <=? n) && (n <=? 32)
   || (n =? 133) || (n =? 160))%N.

Fixpoint lstrip (s : string) : string :=
  match s with
  | EmptyString => EmptyString
  | String c s' => if isspace c then lstrip s' else s
  end.

Fixpoint rstrip (s : string) : string :=
  match s with
  | EmptyString => EmptyString
  | String c s' =>
      match rstrip s' with
      | EmptyString => if isspace c then EmptyString else String c EmptyString
      | r => String c r
      end
  end.

(** [s.strip()] *)
Definition strip (s : string) : string := rstrip (lstrip s).

Fixpoint drop (n : nat) (s : string) : string :=
  match n, s with
  | O, _ => s
  | S _, EmptyString => EmptyString
  | S n', String _ s' => drop n' s'
  end.

(** [sub in s] *)
Fixpoint contains (sub s : string) : bool :=
  if String.prefix sub s then true
  else match s with
       | EmptyString => false
       | String _ s' => contains sub s'
       end.

(** [s.find(sep)], returned as the text before the first occurrence and
    the text after it. *)
Fixpoint find (sep s : string) : option (string * string) :=
  if String.prefix sep s then Some (EmptyString, drop (String.length sep) s)
  else match s with
       | EmptyString => None
       | String c s' =>
           match find sep s' with
           | Some (a, b) => Some (String c a, b)
           | None => None
           end
       end.

(** The loop of [s.split(sep)] for a non-empty [sep]: cut at the first
    occurrence, go on after it.  [n] bounds the number of cuts. *)
Fixpoint split_loop (n : nat) (sep s : string) : list string :=
  match n with
  | O => [s]
  | S n' =>
      match find sep s with
      | None => [s]
      | Some (a, b) => a :: split_loop n' sep b
      end
  end.

Definition split (sep s : string) : list string :=
  split_loop (String.length s) sep s.

(** [sep.join(l)] *)
Definition join (sep : string) (l : list string) : string :=
  String.concat sep l.

(** [l[-1]] *)
Definition last_item {A} (l : list A) : result A :=
  match last l with
  | Some x => Ok x
  | None => Raise IndexError
  end.

(** *** Notions used to state the properties *)

(** The keyword occurs in the message when case is ignored: some piece of
    the message has the same lower-case form as the keyword. *)
Definition occurs_ignoring_case (kw msg : string) : Prop :=
  exists a m b, msg = a +:+ m +:+ b /\ lower m = lower kw.

(** What [s.strip()] leaves: no white space at either end. *)
Fixpoint all_space (s : string) : bool :=
  match s with
  | EmptyString => true
  | String c s' => isspace c && all_space s'
  end.

Definition first_char (s : string) : option ascii :=
  match s with
  | EmptyString => None
  | String c _ => Some c
  end.

Fixpoint last_char (s : string) : option ascii :=
  match s with
  | EmptyString => None
  | String c s' =>
      match s' with
      | EmptyString => Some c
      | String _ _ => last_char s'
      end
  end.

Definition trimmed (s : string) : Prop :=
  (forall c, first_char s = Some c -> isspace c = false)
  /\ (forall c, last_char s = Some c -> isspace c = false).

(** White space and letter case written out character by character, for
    stating what the router does without the functions it calls. *)
Definition white_space : list ascii :=
  [ "009"%char; "010"%char; "011"%char; "012"%char; "013"%char;
    "028"%char; "029"%char; "030"%char; "031"%char; " "%char;
    "133"%char; "160"%char ].

Fixpoint blank (s : string) : bool :=
  match s with
  | EmptyString => true
  | String c s' => bool_decide (c ∈ white_space) && blank s'
  end.

(** Neither the first nor the last character is white space. *)
Definition bare (s : string) : Prop :=
  (forall c, first_char s = Some c -> c ∉ white_space)
  /\ (forall c, last_char s = Some c -> c ∉ white_space).

Definition small_letters : list ascii :=
  String.list_ascii_of_string "abcdefghijklmnopqrstuvwxyz".

Definition capital_letters : list ascii :=
  String.list_ascii_of_string "ABCDEFGHIJKLMNOPQRSTUVWXYZ".

(** [c] is the character [k] of a keyword, or its capital. *)
Definition same_letter (k c : ascii) : bool :=
  bool_decide (c = k)
  || bool_decide ((k, c) ∈ zip small_letters capital_letters).

(** [m] is the keyword [kw] up to the case of its letters. *)
Fixpoint same_text (kw m : string) : bool :=
  match kw, m with
  | EmptyString, EmptyString => true
  | String k kw', String c m' => same_letter k c && same_text kw' m'
  | _, _ => false
  end.

(** The keyword occurs in the text, in whatever case. *)
Definition occurs_any_case (kw text : string) : Prop :=
  exists a m b, text = a +:+ m +:+ b /\ same_text kw m = true.

(** A keyword made of small letters and spaces. *)
Fixpoint plain (kw : string) : bool :=
  match kw with
  | EmptyString => true
  | String k kw' =>
      (bool_decide (k = " "%char) || bool_decide (k ∈ small_letters))
      && plain kw'
  end.

(** What [s.split(sep)] means: cut at the leftmost occurrence of [sep],
    then split what follows it; a text without [sep] is one segment. *)
Inductive splits (sep : string) : string -> list string -> Prop :=
  | splits_end (s : string) :
      contains sep s = false -> splits sep s [s]
  | splits_cut (a b : string) (l : list string) :
      (forall a' b', a +:+ sep +:+ b = a' +:+ sep +:+ b' ->
                     (String.length a <= String.length a')%nat) ->
      splits sep b l ->
      splits sep (a +:+ sep +:+ b) (a :: l).

End PyStr.

(** ** main.py: messages and the graph state *)

Record tool_call : Type := {
  tc_name : string;
  tc_args : list (string * string);
  tc_id : string
}.

Inductive message : Type :=
  | HumanMessage (content : string)
  | AIMessage (content : string) (tool_calls : list tool_call)
  | ToolMessage (content : string) (tool_call_id : string).

Definition content (m : message) : string :=
  match m with
  | HumanMessage c => c
  | AIMessage c _ => c
  | ToolMessage c _ => c
  end.

Inductive Intent : Type := RESEARCH | STUDY | GENERAL.

(** [RASAState]; [intent] is [None] for the empty string the callers pass
    in before the router has run. *)
Record RASAState : Type := {
  messages : list message;
  user_id : Z;
  research_topic : string;
  intent : option Intent
}.

(** The keys [route_request] returns for updating. *)
Record RouterUpdate : Type := {
  upd_intent : Intent;
  upd_research_topic : string
}.

Definition route_request (state : RASAState) : result RouterUpdate :=
  match PyStr.last_item (messages state) with
  | Raise e => Raise e
  | Ok m =>
      let last_message := content m in
      if PyStr.contains "research" (PyStr.lower last_message)
         || PyStr.contains "find facts" (PyStr.lower last_message)
      then
        match PyStr.last_item (PyStr.split " on " last_message) with
        | Raise e => Raise e
        | Ok seg => Ok {| upd_intent := RESEARCH;
                          upd_research_topic := PyStr.strip seg |}
        end
      else if PyStr.contains "test me" (PyStr.lower last_message)
              || PyStr.contains "explain" (PyStr.lower last_message)
      then
        match PyStr.last_item (PyStr.split " on " last_message) with
        | Raise e => Raise e
        | Ok seg => Ok {| upd_intent := STUDY;
                          upd_research_topic := PyStr.strip seg |}
        end
      else Ok {| upd_intent := GENERAL;
                 upd_research_topic := "General Inquiry" |}
  end.

(** The policy in the words of the specification. *)
Definition wants_research (text : string) : Prop :=
  PyStr.occurs_ignoring_case "research" text
  \/ PyStr.occurs_ignoring_case "find facts" text.

Definition wants_study (text : string) : Prop :=
  PyStr.occurs_ignoring_case "test me" text
  \/ PyStr.occurs_ignoring_case "explain" text.

(** The same policy with case spelled out letter by letter. *)
Definition asks_research (text : string) : Prop :=
  PyStr.occurs_any_case "research" text
  \/ PyStr.occurs_any_case "find facts" text.

Definition asks_study (text : string) : Prop :=
  PyStr.occurs_any_case "test me" text
  \/ PyStr.occurs_any_case "explain" text.

Definition research_query_short : string :=
  "Please research the current state of Quantum Computing".

Definition study_query : string :=
  "Test me on Quantum Computing. What is a qubit?".

(** The graph engine writes the returned keys into the state; every
    other key is kept. *)
Definition apply_router_update (state : RASAState) (u : RouterUpdate)
  : RASAState :=
  {| messages := messages state; user_id := user_id state;
     research_topic := upd_research_topic u;
     intent := Some (upd_intent u) |}.


(** ** custom_tools.py: the research bank and its tools *)

Inductive level : Type := INFO | WARNING.

(** The process-wide state of [custom_tools.py]: the dictionary held by
    [RESEARCH_BANK] and the records handed to [LOGGER]. *)
Record world : Type := {
  db : gmap Z (gmap string (list string));
  logged : list (level * string)
}.

(** State and exceptions: a raise keeps the mutations made before it. *)
Definition M (A : Type) : Type := world -> result A * world.

#[global] Instance M_ret : MRet M := fun A a w => (Ok a, w).
#[global] Instance M_bind : MBind M := fun A B f c w =>
  match c w with
  | (Ok a, w') => f a w'
  | (Raise e, w') => (Raise e, w')
  end.

Definition raise {A} (e : exn) : M A := fun w => (Raise e, w).
Definition get_db : M (gmap Z (gmap string (list string))) :=
  fun w => (Ok (db w), w).
Definition put_db (d : gmap Z (gmap string (list string))) : M unit :=
  fun w => (Ok tt, {| db := d; logged := logged w |}).
Definition emit (l : level) (text : string) : M unit :=
  fun w => (Ok tt, {| db := db w; logged := logged w ++ [(l, text)] |}).

(** [d[k]] *)
Definition getitem {K V} `{Countable K} (d : gmap K V) (k : K) : M V :=
  match d !! k with
  | Some v => mret v
  | None => raise KeyError
  end.

(** [ResearchKnowledgeBank.__init__], run once when the module is loaded. *)
Definition RESEARCH_BANK : world :=
  {| db := {[ 101 := {[ "Quantum Computing" :=
                          ["Initial notes on Qubit entanglement."] ]} ]};
     logged := [(INFO, "ResearchKnowledgeBank (LTM) initialized.")] |}.

Definition save_finding (user_id : Z) (topic finding : string) : M string :=
  d ← get_db;
  _ ← match d !! user_id with
      | None => put_db (<[user_id := ∅]> d)
      | Some _ => mret tt
      end;
  d ← get_db;
  u ← getitem d user_id;
  _ ← match u !! topic with
      | None => put_db (<[user_id := <[topic := []]> u]> d)
      | Some _ => mret tt
      end;
  d ← get_db;
  u ← getitem d user_id;
  l ← getitem u topic;
  _ ← put_db (<[user_id := <[topic := l ++ [finding]]> u]> d);
  _ ← emit WARNING ("Finding saved: User " +:+ pretty user_id
                    +:+ " added finding to topic '" +:+ topic +:+ "'.");
  mret ("Finding successfully saved to Research Bank under topic '"
        +:+ topic +:+ "'.").

Definition no_findings : string := "No current findings on this topic.".

Definition summarize_topic_knowledge (user_id : Z) (topic : string)
  : M string :=
  d ← get_db;
  let user_data := default ∅ (d !! user_id) in
  let findings := default [no_findings] (user_data !! topic) in
  let summary := PyStr.join (PyStr.LF +:+ "- ") findings in
  _ ← emit INFO ("Retrieved knowledge summary for user " +:+ pretty user_id
                 +:+ " on '" +:+ topic +:+ "'.");
  mret ("Existing knowledge on '" +:+ topic +:+ "':" +:+ PyStr.LF +:+ "- "
        +:+ summary).

(** The findings stored for a user and a topic, if both are known. *)
Definition ledger (w : world) (uid : Z) (topic : string)
  : option (list string) :=
  db w !! uid ≫= fun u => u !! topic.

Definition findings_of (w : world) (uid : Z) (topic : string)
  : list string :=
  default [] (ledger w uid topic).

(** A bulleted list: every item on a line of its own, after "- ". *)
Fixpoint bullets (items : list string) : string :=
  match items with
  | [] => ""
  | x :: rest => PyStr.LF +:+ "- " +:+ x +:+ bullets rest
  end.

Definition confirmation (topic : string) : string :=
  "Finding successfully saved to Research Bank under topic '"
  +:+ topic +:+ "'.".

Definition save_record (uid : Z) (topic : string) : level * string :=
  (WARNING, "Finding saved: User " +:+ pretty uid
            +:+ " added finding to topic '" +:+ topic +:+ "'.").

(** Saving a sequence of findings, one call after the other. *)
Fixpoint save_all (uid : Z) (topic : string) (fs : list string) : M unit :=
  match fs with
  | [] => mret tt
  | f :: fs' => _ ← save_finding uid topic f; save_all uid topic fs'
  end.

(** Any sequence of calls of the two tools, by whichever caller. *)
Inductive tool_op : Type :=
  | Save (uid : Z) (topic finding : string)
  | Summarize (uid : Z) (topic : string).

Definition run_op (o : tool_op) : M string :=
  match o with
  | Save uid topic finding => save_finding uid topic finding
  | Summarize uid topic => summarize_topic_knowledge uid topic
  end.

Fixpoint run_ops (ops : list tool_op) : M (list string) :=
  match ops with
  | [] => mret []
  | o :: rest => x ← run_op o; xs ← run_ops rest; mret (x :: xs)
  end.

(** The findings a sequence of calls saves for one user and topic, in
    call order. *)
Fixpoint saved_for (uid : Z) (topic : string) (ops : list tool_op)
  : list string :=
  match ops with
  | [] => []
  | Save u t f :: rest =>
      if decide ((u, t) = (uid, topic))
      then f :: saved_for uid topic rest else saved_for uid topic rest
  | Summarize _ _ :: rest => saved_for uid topic rest
  end.

(** The record a call hands to the logger. *)
Definition log_record_of (o : tool_op) : level * string :=
  match o with
  | Save uid topic _ =>
      (WARNING, "Finding saved: User " +:+ pretty uid
                +:+ " added finding to topic '" +:+ topic +:+ "'.")
  | Summarize uid topic =>
      (INFO, "Retrieved knowledge summary for user " +:+ pretty uid
             +:+ " on '" +:+ topic +:+ "'.")
  end.

(** ** main.py: agents, conditional edges and the graph *)

Definition lift {A} (r : result A) : M A := fun w => (r, w).

(** The [add] reducer of the [messages] key. *)
Definition add_messages (state : RASAState) (new : list message)
  : RASAState :=
  {| messages := messages state ++ new; user_id := user_id state;
     research_topic := research_topic state; intent := intent state |}.

Inductive status : Type := call_tool | respond_final.

(** [last_message.tool_calls] exists on an [AIMessage] only; a list is
    true when it is not empty. *)
Definition check_agent_status (state : RASAState) : result status :=
  match PyStr.last_item (messages state) with
  | Raise e => Raise e
  | Ok (AIMessage _ tcs) =>
      match tcs with
      | _ :: _ => Ok call_tool
      | [] => Ok respond_final
      end
  | Ok _ => Raise AttributeError
  end.

Inductive node : Type :=
  | N_START
  | N_router
  | N_research_agent
  | N_study_agent
  | N_tool_executor
  | N_END.

#[global] Instance node_eq_dec : EqDecision node.
Proof. solve_decision. Defined.

Section Graph.

(** [llm_with_tools.invoke] and [llm.invoke]: the content and the tool
    calls of the [AIMessage] the model answers with. *)
Variable llm_with_tools : list message -> string * list tool_call.
Variable llm : string -> string * list tool_call.
(** [ToolNode(all_tools)]: the messages it appends, running the tools on
    the bank. *)
Variable tool_node : RASAState -> M (list message).

Definition research_system_prompt (topic : string) : string :=
  PyStr.join PyStr.LF
    [ "";
      "    You are a Deep Research Assistant. Your goal is to provide comprehensive, sourced answers.";
      "    Your topic is " +:+ topic +:+ ".";
      "    ";
      "    1. **Plan:** Use `summarize_topic_knowledge` to check what the user already knows.";
      "    2. **Execute:** Use `Google Search` to find new information.";
      "    3. **Synthesize:** If a new fact is found, use `save_finding` to update the Research Bank.";
      "    4. **Output:** Provide a final, summarized answer with citations.";
      "    " ].

Definition research_agent (state : RASAState) : list message :=
  let prompt_messages :=
    [HumanMessage (research_system_prompt (research_topic state))]
    ++ messages state in
  let response := llm_with_tools prompt_messages in
  [AIMessage (fst response) (snd response)].

Definition study_prompt (topic knowledge_summary last_message : string)
  : string :=
  PyStr.join PyStr.LF
    [ "";
      "    You are a dedicated Tutor. The user wants to study '" +:+ topic +:+ "'. ";
      "    Their existing knowledge is: " +:+ String "034"%char ""
        +:+ knowledge_summary +:+ String "034"%char "" +:+ ".";
      "    Answer the user's question, applying their existing knowledge while introducing new concepts.";
      "    User's request: " +:+ last_message;
      "    " ].

Definition study_agent (state : RASAState) : M (list message) :=
  m ← lift (PyStr.last_item (messages state));
  let last_message := content m in
  let topic := research_topic state in
  knowledge_summary ← summarize_topic_knowledge (user_id state) topic;
  let response := llm (study_prompt topic knowledge_summary last_message) in
  mret [AIMessage (fst response) (snd response)].

(** [workflow.add_node]: what running a node does to the state. *)
Definition run_node (n : node) (state : RASAState) : M RASAState :=
  match n with
  | N_START | N_END => mret state
  | N_router =>
      u ← lift (route_request state); mret (apply_router_update state u)
  | N_research_agent => mret (add_messages state (research_agent state))
  | N_study_agent =>
      new ← study_agent state; mret (add_messages state new)
  | N_tool_executor =>
      new ← tool_node state; mret (add_messages state new)
  end.

(** [workflow.add_edge] *)
Definition edges : list (node * node) :=
  [ (N_START, N_router);
    (N_study_agent, N_END);
    (N_tool_executor, N_research_agent) ].

(** [workflow.add_conditional_edges]: the path function composed with
    its mapping. *)
Definition conditional_edges (n : node)
  : option (RASAState -> result node) :=
  match n with
  | N_router => Some (fun state =>
      match intent state with
      | Some RESEARCH => Ok N_research_agent
      | Some STUDY => Ok N_study_agent
      | Some GENERAL => Ok N_END
      | None => Raise KeyError
      end)
  | N_research_agent => Some (fun state =>
      match check_agent_status state with
      | Ok call_tool => Ok N_tool_executor
      | Ok respond_final => Ok N_END
      | Raise e => Raise e
      end)
  | _ => None
  end.

Definition edge_from (n : node) : option node :=
  snd <$> head (filter (fun e => fst e = n) edges).

(** The node that runs after [n] has left the state [state]. *)
Definition successor (n : node) (state : RASAState) : result node :=
  match conditional_edges n with
  | Some path => path state
  | None => Ok (default N_END (edge_from n))
  end.

Definition step (n : node) (state : RASAState) : M (node * RASAState) :=
  state' ← run_node n state;
  n' ← lift (successor n state');
  mret (n', state').

(** The nodes visited by [app.invoke], each with the state it starts
    from; [fuel] bounds the number of visits. *)
Fixpoint visits (fuel : nat) (n : node) (state : RASAState) (w : world)
  : list (node * RASAState) :=
  match fuel with
  | O => []
  | S fuel' =>
      (n, state) ::
      match n with
      | N_END => []
      | _ =>
          match step n state w with
          | (Ok (n', state'), w') => visits fuel' n' state' w'
          | (Raise _, _) => []
          end
      end
  end.

(** A research visit whose answer carries at least one tool call. *)
Definition issues_tool_batch (v : node * RASAState) : bool :=
  match v with
  | (N_research_agent, state) =>
      match research_agent state with
      | [AIMessage _ (_ :: _)] => true
      | _ => false
      end
  | _ => false
  end.

Definition is_tool_visit (v : node * RASAState) : bool :=
  bool_decide (fst v = N_tool_executor).

Definition completed (t : list (node * RASAState)) : Prop :=
  fst <$> last t = Some N_END.

(** What may stand next to what in the list of visits. *)
Definition follows (v v' : node * RASAState) : Prop :=
  (fst v = N_research_agent ->
   fst v' = if issues_tool_batch v then N_tool_executor else N_END)
  /\ (fst v = N_tool_executor -> fst v' = N_research_agent)
  /\ (fst v' = N_tool_executor ->
      fst v = N_research_agent /\ issues_tool_batch v = true).

Definition count (p : node * RASAState -> bool)
    (t : list (node * RASAState)) : nat :=
  length (List.filter p t).

(** [app.invoke] on a thread without a checkpoint: the state the graph
    ends with, or [None] when [fuel] visits did not reach END. *)
Fixpoint run_graph (fuel : nat) (n : node) (state : RASAState)
  : M (option RASAState) :=
  match fuel with
  | O => mret None
  | S fuel' =>
      match n with
      | N_END => mret (Some state)
      | _ => r ← step n state; run_graph fuel' (fst r) (snd r)
      end
  end.

End Graph.

(** ** main.py: the statements run when the module is loaded *)

(** Names bound in the module by lines 2 to 29, followed by the built-in
    names the module uses. *)
Definition main_globals : list string :=
  [ "logging"; "TypedDict"; "Annotated"; "List"; "Literal"; "add";
    "BaseMessage"; "HumanMessage"; "AIMessage"; "ChatGoogleGenerativeAI";
    "StateGraph"; "END"; "START"; "InMemorySaver"; "ToolNode";
    "GoogleSearchRun"; "GoogleSearchAPIWrapper"; "load_dotenv";
    "RESEARCH_BANK"; "save_finding"; "summarize_topic_knowledge";
    "search"; "google_search_tool"; "all_tools";
    "print"; "exit"; "ImportError"; "ValueError" ].

Definition resolve (globals : list string) (name : string) : result unit :=
  if bool_decide (name ∈ globals) then Ok tt else Raise (NameError name).

(** [os.getenv(name)] is [None] when the variable is absent; [None] and
    the empty string are false. *)
Definition truthy (v : option string) : bool :=
  match v with
  | Some (String _ _) => true
  | _ => false
  end.

(** Lines 32-33, with the names bound so far and the process
    environment. *)
Definition check_api_key (globals : list string)
    (environ : gmap string string) : result unit :=
  match resolve globals "os" with
  | Raise e => Raise e
  | Ok _ =>
      if negb (truthy (environ !! "GEMINI_API_KEY"))
      then Raise (ValueError
             "GEMINI_API_KEY environment variable not set. Please set it.")
      else Ok tt
  end.

(** A model that asks once for the stored summary and then answers, and a
    tool node that serves that one request: a run with one tool batch. *)
Definition demo_llm_with_tools (prompt_messages : list message)
  : string * list tool_call :=
  match prompt_messages with
  | [_; _] =>
      ("", [ {| tc_name := "summarize_topic_knowledge";
                tc_args := [("user_id", "101"); ("topic", "tides")];
                tc_id := "call_1" |} ])
  | _ => ("Tides follow the moon.", [])
  end.

Definition demo_llm (prompt : string) : string * list tool_call :=
  ("A qubit is a two-level system.", []).

Definition demo_tool_node (state : RASAState) : M (list message) :=
  text ← summarize_topic_knowledge (user_id state) "tides";
  mret [ToolMessage text "call_1"].

Definition demo_state : RASAState :=
  {| messages := [HumanMessage "Please research on tides"];
     user_id := 101; research_topic := "Quantum Computing";
     intent := None |}.

(** A model that asks for a tool on every turn. *)
Definition greedy_llm_with_tools (prompt_messages : list message)
  : string * list tool_call :=
  ("", [ {| tc_name := "google_search";
            tc_args := [("query", "tides")];
            tc_id := "call_n" |} ]).

(** A tool node that answers every batch with one message and touches
    nothing. *)
Definition idle_tool_node (state : RASAState) : M (list message) :=
  mret [ToolMessage "no result" "call_n"].

(** * Properties *)

(** ** Strings *)

Module PyStrFacts.
Import PyStr.

Lemma str_app_nil_l (s : string) : "" +:+ s = s.
Proof. reflexivity. Qed.

Lemma str_app_cons (c : ascii) (a b : string) :
  String c a +:+ b = String c (a +:+ b).
Proof. reflexivity. Qed.

Lemma str_app_nil_r (s : string) : s +:+ "" = s.
Proof. induction s as [|c s IH]; [reflexivity|]. by rewrite str_app_cons, IH. Qed.

Lemma str_app_assoc (a b c : string) : (a +:+ b) +:+ c = a +:+ b +:+ c.
Proof.
  induction a as [|x a IH]; [reflexivity|].
  by rewrite !str_app_cons, IH.
Qed.

Lemma str_length_app (a b : string) :
  String.length (a +:+ b) = (String.length a + String.length b)%nat.
Proof.
  induction a as [|x a IH]; [reflexivity|].
  rewrite str_app_cons. simpl. by rewrite IH.
Qed.

Lemma drop_app (a b : string) : drop (String.length a) (a +:+ b) = b.
Proof. induction a as [|x a IH]; [by destruct b|]. by rewrite str_app_cons. Qed.

(** [String.prefix] is "starts with". *)
Lemma prefix_spec (a s : string) :
  String.prefix a s = true <-> exists r, s = a +:+ r.
Proof.
  revert s. induction a as [|x a IH]; intros s; simpl.
  - destruct s; split; eauto.
  - destruct s as [|y s].
    + split; [done|]. intros [r Hr]. by rewrite str_app_cons in Hr.
    + simpl. destruct (ascii_dec x y) as [->|Hxy].
      * rewrite (IH s). split; intros [r Hr]; exists r.
        -- by rewrite str_app_cons, Hr.
        -- rewrite str_app_cons in Hr. by simplify_eq.
      * split; [done|]. intros [r Hr]. rewrite str_app_cons in Hr.
        by simplify_eq.
Qed.

Lemma prefix_app (a r : string) : String.prefix a (a +:+ r) = true.
Proof. apply prefix_spec. eauto. Qed.

Lemma contains_nil (sub : string) :
  contains sub "" = String.prefix sub "".
Proof. by destruct sub. Qed.

Lemma contains_cons (sub : string) (c : ascii) (s : string) :
  contains sub (String c s) =
  if String.prefix sub (String c s) then true else contains sub s.
Proof. reflexivity. Qed.

(** [sub in s] holds exactly when [s] can be cut around a copy of [sub]. *)
Lemma contains_spec (sub s : string) :
  contains sub s = true <-> exists a b, s = a +:+ sub +:+ b.
Proof.
  induction s as [|c s IH]; [rewrite contains_nil|rewrite contains_cons].
  - destruct (String.prefix sub "") eqn:Hp.
    + split; [|done]. intros _. apply prefix_spec in Hp as [r Hr].
      exists "", r. by rewrite str_app_nil_l.
    + split; [done|]. intros (a & b & Hab).
      destruct a as [|x a]; [|by rewrite str_app_cons in Hab].
      rewrite str_app_nil_l in Hab. rewrite Hab, prefix_app in Hp. done.
  - destruct (String.prefix sub (String c s)) eqn:Hp.
    + split; [|done]. intros _. apply prefix_spec in Hp as [r Hr].
      exists "", r. by rewrite str_app_nil_l.
    + rewrite IH. split.
      * intros (a & b & ->). exists (String c a), b. by rewrite str_app_cons.
      * intros (a & b & Hab). destruct a as [|x a].
        -- rewrite str_app_nil_l in Hab. rewrite Hab, prefix_app in Hp. done.
        -- rewrite str_app_cons in Hab. simplify_eq. eauto.
Qed.

Lemma contains_false (sub s : string) :
  contains sub s = false <-> ~ exists a b, s = a +:+ sub +:+ b.
Proof. rewrite <- contains_spec. by destruct (contains sub s). Qed.

(** [str.lower] works character by character. *)
Lemma lower_app (a b : string) : lower (a +:+ b) = lower a +:+ lower b.
Proof.
  induction a as [|x a IH]; [reflexivity|].
  rewrite str_app_cons. simpl. by rewrite str_app_cons, IH.
Qed.

Lemma lower_app_inv (s x y : string) :
  lower s = x +:+ y ->
  exists s1 s2, s = s1 +:+ s2 /\ lower s1 = x /\ lower s2 = y.
Proof.
  revert s. induction x as [|c x IH]; intros s Hs.
  - exists "", s. by rewrite str_app_nil_l in Hs.
  - destruct s as [|d s]; [by rewrite str_app_cons in Hs|].
    rewrite str_app_cons in Hs. simpl in Hs. simplify_eq.
    destruct (IH s) as (s1 & s2 & -> & <- & <-); [done|].
    exists (String d s1), s2. by rewrite str_app_cons.
Qed.

Lemma lower_char_idemp (c : ascii) : lower_char (lower_char c) = lower_char c.
Proof. by destruct c as [[] [] [] [] [] [] [] []]. Qed.

Lemma lower_idemp (s : string) : lower (lower s) = lower s.
Proof.
  induction s as [|c s IH]; [done|]. simpl. by rewrite lower_char_idemp, IH.
Qed.

Lemma contains_lower (kw msg : string) :
  lower kw = kw ->
  contains kw (lower msg) = true <-> occurs_ignoring_case kw msg.
Proof.
  intros Hkw. rewrite contains_spec. unfold occurs_ignoring_case. split.
  - intros (a & b & Hab).
    apply lower_app_inv in Hab as (s1 & s2 & -> & _ & H2).
    apply lower_app_inv in H2 as (m & s3 & -> & Hm & _).
    exists s1, m, s3. by rewrite Hkw.
  - intros (a & m & b & -> & Hm). exists (lower a), (lower b).
    by rewrite !lower_app, Hm, Hkw.
Qed.

(** *** [strip] *)

Lemma lstrip_spec (s : string) :
  exists l,
    s = l +:+ lstrip s /\ all_space l = true
    /\ (forall c, first_char (lstrip s) = Some c -> isspace c = false).
Proof.
  induction s as [|c s (l & Hs & Hl & Hfirst)].
  - by exists "".
  - cbn [lstrip]. destruct (isspace c) eqn:Hc.
    + exists (String c l). rewrite str_app_cons, <- Hs. cbn [all_space].
      by rewrite Hc, Hl.
    + exists "". repeat split. cbn. by intros ? [= <-].
Qed.

Lemma rstrip_cons (c : ascii) (s : string) :
  rstrip (String c s)
  = match rstrip s with
    | EmptyString => if isspace c then "" else String c ""
    | String d t => String c (String d t)
    end.
Proof. reflexivity. Qed.

Lemma rstrip_spec (s : string) :
  exists r,
    s = rstrip s +:+ r /\ all_space r = true
    /\ (forall c, last_char (rstrip s) = Some c -> isspace c = false).
Proof.
  induction s as [|c s (r & Hs & Hr & Hlast)].
  - by exists "".
  - rewrite rstrip_cons. destruct (rstrip s) as [|d t] eqn:Ht.
    + rewrite str_app_nil_l in Hs. subst r.
      destruct (isspace c) eqn:Hc.
      * exists (String c s). repeat split; [|done].
        cbn [all_space]. by rewrite Hc, Hr.
      * exists s. repeat split; [done|]. cbn. by intros ? [= <-].
    + exists r. rewrite !str_app_cons. rewrite str_app_cons in Hs.
      by rewrite <- Hs.
Qed.

Lemma rstrip_first_char (s : string) (c : ascii) :
  first_char (rstrip s) = Some c -> first_char s = Some c.
Proof.
  destruct s as [|x s]; [done|]. rewrite rstrip_cons.
  destruct (rstrip s); [|done]. by destruct (isspace x).
Qed.

(** [s.strip()] removes white space from both ends of [s], and only
    that. *)
Lemma strip_spec (s : string) :
  exists l r,
    s = l +:+ strip s +:+ r /\ all_space l = true /\ all_space r = true
    /\ trimmed (strip s).
Proof.
  destruct (lstrip_spec s) as (l & Hs & Hl & Hfirst).
  destruct (rstrip_spec (lstrip s)) as (r & Hm & Hr & Hlast).
  exists l, r. unfold strip, trimmed. rewrite <- Hm.
  repeat split; try done.
  intros c Hc. apply Hfirst. by apply rstrip_first_char.
Qed.

(** *** [find] and [split] *)

Lemma find_nil (sep : string) :
  find sep "" = if String.prefix sep "" then Some ("", "") else None.
Proof. by destruct sep. Qed.

Lemma find_cons (sep : string) (c : ascii) (s : string) :
  find sep (String c s) =
  if String.prefix sep (String c s)
  then Some ("", drop (String.length sep) (String c s))
  else match find sep s with
       | Some (a, b) => Some (String c a, b)
       | None => None
       end.
Proof. reflexivity. Qed.

Lemma find_Some (sep s a b : string) :
  find sep s = Some (a, b) -> s = a +:+ sep +:+ b.
Proof.
  revert a b. induction s as [|c s IH]; intros a b.
  - rewrite find_nil. destruct (String.prefix sep "") eqn:Hp; [|done].
    intros [= <- <-]. apply prefix_spec in Hp as [r Hr].
    destruct sep; [done|by rewrite str_app_cons in Hr].
  - rewrite find_cons. destruct (String.prefix sep (String c s)) eqn:Hp.
    + intros [= <- <-]. apply prefix_spec in Hp as [r Hr].
      rewrite Hr at 1. by rewrite Hr, drop_app.
    + destruct (find sep s) as [[a' b']|] eqn:Hf; [|done].
      intros [= <- <-]. by rewrite str_app_cons, <- (IH a' b').
Qed.

(** The occurrence [find] reports is the leftmost one. *)
Lemma find_leftmost (sep s a b a' b' : string) :
  find sep s = Some (a, b) -> s = a' +:+ sep +:+ b' ->
  (String.length a <= String.length a')%nat.
Proof.
  revert a b a' b'. induction s as [|c s IH]; intros a b a' b'.
  - rewrite find_nil. destruct (String.prefix sep ""); [|done].
    intros [= <- <-] _. simpl. lia.
  - rewrite find_cons. destruct (String.prefix sep (String c s)) eqn:Hp.
    + intros [= <- <-] _. simpl. lia.
    + destruct (find sep s) as [[a0 b0]|] eqn:Hf; [|done].
      intros [= <- <-] Hs. destruct a' as [|x a'].
      * rewrite str_app_nil_l in Hs. by rewrite Hs, prefix_app in Hp.
      * rewrite str_app_cons in Hs. simplify_eq. simpl.
        specialize (IH a0 b0 a' b' eq_refl eq_refl). lia.
Qed.

Lemma find_None (sep s : string) :
  find sep s = None <-> contains sep s = false.
Proof.
  induction s as [|c s IH].
  - rewrite find_nil, contains_nil. by destruct (String.prefix sep "").
  - rewrite find_cons, contains_cons.
    destruct (String.prefix sep (String c s)); [done|].
    rewrite <- IH. by destruct (find sep s) as [[??]|].
Qed.

Lemma find_shorter (sep s a b : string) :
  sep <> "" -> find sep s = Some (a, b) ->
  (String.length b < String.length s)%nat.
Proof.
  intros Hsep Hf. rewrite (find_Some _ _ _ _ Hf), !str_length_app.
  destruct sep; [done|]. simpl. lia.
Qed.

Lemma split_loop_fuel (sep : string) (n m : nat) (s : string) :
  sep <> "" -> (String.length s <= n)%nat -> (String.length s <= m)%nat ->
  split_loop n sep s = split_loop m sep s.
Proof.
  intros Hsep. revert m s. induction n as [|n IH]; intros m s Hn Hm.
  - destruct s; [|simpl in Hn; lia].
    destruct m; [done|]. cbn [split_loop]. rewrite find_nil.
    destruct sep; [done|]. done.
  - destruct m as [|m].
    + destruct s; [|simpl in Hm; lia]. cbn [split_loop]. rewrite find_nil.
      destruct sep; [done|]. done.
    + cbn [split_loop]. destruct (find sep s) as [[a b]|] eqn:Hf; [|done].
      pose proof (find_shorter _ _ _ _ Hsep Hf).
      f_equal. apply IH; lia.
Qed.

(** Any bound of at least the length of the text gives [split]: the
    loop of [str.split] has stopped by then. *)
Lemma split_loop_enough (sep : string) (n : nat) (s : string) :
  sep <> "" -> (String.length s <= n)%nat ->
  split_loop n sep s = split sep s.
Proof. intros. apply split_loop_fuel; [done|lia|lia]. Qed.

Lemma split_unfold (sep s : string) :
  sep <> "" ->
  split sep s = match find sep s with
                | None => [s]
                | Some (a, b) => a :: split sep b
                end.
Proof.
  intros Hsep. rewrite <- (split_loop_enough sep (S (String.length s)));
    [|done|lia].
  cbn [split_loop]. destruct (find sep s) as [[a b]|] eqn:Hf; [|done].
  pose proof (find_shorter _ _ _ _ Hsep Hf).
  f_equal. apply split_loop_enough; [done|lia].
Qed.

Lemma split_splits (sep s : string) :
  sep <> "" -> splits sep s (split sep s).
Proof.
  intros Hsep. remember (String.length s) as n eqn:Hn.
  revert s Hn. induction (lt_wf n) as [n _ IH]; intros s ->.
  rewrite split_unfold by done.
  destruct (find sep s) as [[a b]|] eqn:Hf.
  - pose proof (find_shorter _ _ _ _ Hsep Hf) as Hlt.
    pose proof (find_Some _ _ _ _ Hf) as Hs.
    rewrite Hs at 1. apply splits_cut.
    + intros a' b' Heq. eapply find_leftmost; [exact Hf|].
      by rewrite Hs.
    + by eapply IH.
  - apply splits_end. by apply find_None.
Qed.

Lemma app_inv_length (a b a' b' : string) :
  a +:+ b = a' +:+ b' -> String.length a = String.length a' ->
  a = a' /\ b = b'.
Proof.
  revert a'. induction a as [|x a IH]; intros [|y a'] Heq Hlen;
    simpl in Hlen; try discriminate.
  - by rewrite !str_app_nil_l in Heq.
  - rewrite !str_app_cons in Heq. injection Heq as -> Heq.
    destruct (IH a' Heq) as [-> ->]; [lia|done].
Qed.

(** [splits] determines the list of segments. *)
Lemma splits_unique (sep s : string) (l l' : list string) :
  splits sep s l -> splits sep s l' -> l = l'.
Proof.
  intros H. revert l'. induction H as [s Hs|a b l Hleft Hb IH]; intros l' H'.
  - inversion H' as [? _|a b l0 _ _ Heq]; subst; [done|].
    apply contains_false in Hs. destruct Hs. eauto.
  - inversion H' as [? Hs|a0 b0 l0 Hleft0 Hb0 Heq]; subst.
    + apply contains_false in Hs. destruct Hs. eauto.
    + pose proof (Hleft _ _ (eq_sym Heq)).
      pose proof (Hleft0 _ _ Heq).
      destruct (app_inv_length _ _ _ _ Heq) as [-> Heq']; [lia|].
      apply (inj _) in Heq' as ->. f_equal. by apply IH.
Qed.

Lemma splits_join (sep s : string) (l : list string) :
  splits sep s l -> join sep l = s.
Proof.
  induction 1 as [s Hs|a b l Hleft Hb IH]; [done|].
  unfold join in *. destruct l as [|x l]; [inversion Hb|].
  change (a +:+ sep +:+ String.concat sep (x :: l) = a +:+ sep +:+ b).
  by rewrite IH.
Qed.

(** The last segment exists and holds no separator. *)
Lemma splits_last (sep s : string) (l : list string) :
  splits sep s l ->
  exists segs seg, l = segs ++ [seg] /\ contains sep seg = false.
Proof.
  induction 1 as [s Hs|a b l Hleft Hb (segs & seg & -> & Hseg)].
  - by exists [], s.
  - by exists (a :: segs), seg.
Qed.


Example split_leftmost :
  split " on " "notes on on tides on " = ["notes"; "on tides"; ""].
Proof. reflexivity. Qed.

Example lower_mixed : lower "Find FACTS [now]" = "find facts [now]".
Proof. reflexivity. Qed.

Example strip_both_ends :
  strip (" " +:+ LF +:+ " two words " +:+ LF) = "two words".
Proof. reflexivity. Qed.

End PyStrFacts.

(** ** The router *)

Module RouterFacts.
Import PyStr PyStrFacts.

Lemma last_item_snoc {A} (l : list A) (x : A) : last_item (l ++ [x]) = Ok x.
Proof. unfold last_item. by rewrite last_snoc. Qed.

Lemma last_item_Some {A} (l : list A) (x : A) :
  last l = Some x -> last_item l = Ok x.
Proof. unfold last_item. by intros ->. Qed.

Lemma wants_research_iff (text : string) :
  contains "research" (lower text) || contains "find facts" (lower text)
    = true <-> wants_research text.
Proof.
  unfold wants_research. rewrite orb_true_iff.
  by rewrite !contains_lower.
Qed.

Lemma wants_study_iff (text : string) :
  contains "test me" (lower text) || contains "explain" (lower text)
    = true <-> wants_study text.
Proof.
  unfold wants_study. rewrite orb_true_iff.
  by rewrite !contains_lower.
Qed.

(** The topic extraction never raises: the list [split] returns has a
    last item. *)
Lemma topic_segment (text : string) :
  exists segs seg,
    split " on " text = segs ++ [seg]
    /\ splits " on " text (segs ++ [seg])
    /\ last_item (split " on " text) = Ok seg.
Proof.
  pose proof (split_splits " on " text ltac:(done)) as Hsp.
  destruct (splits_last _ _ _ Hsp) as (segs & seg & Heq & _).
  exists segs, seg. rewrite Heq in Hsp |- *.
  by rewrite last_item_snoc.
Qed.

End RouterFacts.

Example route_hello_there :
  route_request
    {| messages := [HumanMessage "Hello there"]; user_id := 101;
       research_topic := "Quantum Computing"; intent := None |}
  = Ok {| upd_intent := GENERAL; upd_research_topic := "General Inquiry" |}.
Proof. reflexivity. Qed.

Example route_upper_case :
  route_request
    {| messages := [HumanMessage "FIND FACTS on  Tides "]; user_id := 101;
       research_topic := "Quantum Computing"; intent := None |}
  = Ok {| upd_intent := RESEARCH; upd_research_topic := "Tides" |}.
Proof. reflexivity. Qed.

(** "research" is looked for first: a message with both kinds of keyword
    is a RESEARCH request. *)
Example route_research_before_study :
  route_request
    {| messages := [HumanMessage "Explain the research on tides"];
       user_id := 101; research_topic := "Quantum Computing";
       intent := None |}
  = Ok {| upd_intent := RESEARCH; upd_research_topic := "tides" |}.
Proof. reflexivity. Qed.

(** C1, as stated, fails: the message holds no " on ", so the topic the
    router returns is not "Quantum Computing". *)
Lemma C1_topic_is_not_quantum_computing :
  ~ exists u,
      route_request
        {| messages := [HumanMessage research_query_short]; user_id := 101;
           research_topic := "Quantum Computing"; intent := None |} = Ok u
      /\ upd_intent u = RESEARCH
      /\ upd_research_topic u = "Quantum Computing".
Proof. intros (u & Hu & _ & Ht). vm_compute in Hu. by simplify_eq. Qed.

(** C1 (amended): for the message "Please research the current state of
    Quantum Computing", whatever the earlier messages and the other keys of
    the state, the router returns intent RESEARCH and, as the message holds
    no " on ", the whole message as the topic. *)
Theorem C1_research_query_routes_to_research
    (earlier : list message) (uid : Z) (topic : string) (i : option Intent) :
  route_request
    {| messages := earlier ++ [HumanMessage research_query_short];
       user_id := uid; research_topic := topic; intent := i |}
  = Ok {| upd_intent := RESEARCH;
          upd_research_topic :=
            "Please research the current state of Quantum Computing" |}.
Proof.
  unfold route_request. cbn [messages].
  by rewrite RouterFacts.last_item_snoc.
Qed.

(** C2, as stated, fails: on a state without messages the router does not
    return a default topic. *)
Lemma C2_empty_messages_no_default_topic :
  ~ exists u,
      route_request
        {| messages := []; user_id := 101;
           research_topic := "Quantum Computing"; intent := None |} = Ok u.
Proof. intros (u & Hu). vm_compute in Hu. done. Qed.

(** C2 (amended): on every state whose message sequence is empty the
    router raises IndexError; it returns no intent and no topic. *)
Theorem C2_empty_messages_raise (state : RASAState) :
  messages state = [] -> route_request state = Raise IndexError.
Proof. intros H. unfold route_request. by rewrite H. Qed.

Lemma C2_empty_messages_raise_witness :
  route_request
    {| messages := []; user_id := 101;
       research_topic := "Quantum Computing"; intent := None |}
  = Raise IndexError.
Proof. apply C2_empty_messages_raise. reflexivity. Defined.

(** ** The policy, character by character *)

Module PolicyFacts.
Import PyStr PyStrFacts.

Lemma isspace_white (c : ascii) :
  isspace c = bool_decide (c ∈ white_space).
Proof. destruct c as [[] [] [] [] [] [] [] []]; vm_compute; reflexivity. Qed.

(** [str.lower] sends to a small letter that letter and its capital, and
    to a space the space, and nothing else. *)
Lemma lower_char_same (k c : ascii) :
  bool_decide (k = " "%char) || bool_decide (k ∈ small_letters) = true ->
  Ascii.eqb (lower_char c) k = same_letter k c.
Proof.
  intros H. destruct k as [[] [] [] [] [] [] [] []]; vm_compute in H;
    try discriminate H; clear H;
    destruct c as [[] [] [] [] [] [] [] []]; vm_compute; reflexivity.
Qed.

Lemma lower_same_text (kw m : string) :
  plain kw = true -> lower m = kw <-> same_text kw m = true.
Proof.
  revert m. induction kw as [|k kw IH]; intros m Hplain.
  - destruct m; [done|]. split; [done|]. cbn. discriminate.
  - cbn [plain] in Hplain. apply andb_true_iff in Hplain as [Hk Hkw].
    destruct m as [|c m]; [done|]. cbn [lower same_text].
    rewrite andb_true_iff, <- (IH m Hkw), <- (lower_char_same k c Hk).
    rewrite Ascii.eqb_eq. split; [by intros [= -> ->]|by intros [-> ->]].
Qed.

Lemma contains_any_case (kw text : string) :
  plain kw = true ->
  contains kw (lower text) = true <-> occurs_any_case kw text.
Proof.
  intros Hplain. rewrite contains_spec. unfold occurs_any_case. split.
  - intros (a & b & Hab).
    apply lower_app_inv in Hab as (s1 & s2 & -> & _ & H2).
    apply lower_app_inv in H2 as (m & s3 & -> & Hm & _).
    exists s1, m, s3. split; [done|]. by apply lower_same_text.
  - intros (a & m & b & -> & Hm). apply lower_same_text in Hm; [|done].
    exists (lower a), (lower b). by rewrite !lower_app, Hm.
Qed.

Lemma asks_research_iff (text : string) :
  contains "research" (lower text) || contains "find facts" (lower text)
    = true <-> asks_research text.
Proof.
  unfold asks_research. rewrite orb_true_iff.
  by rewrite !contains_any_case.
Qed.

Lemma asks_study_iff (text : string) :
  contains "test me" (lower text) || contains "explain" (lower text)
    = true <-> asks_study text.
Proof.
  unfold asks_study. rewrite orb_true_iff.
  by rewrite !contains_any_case.
Qed.

Lemma all_space_blank (s : string) : all_space s = blank s.
Proof.
  induction s as [|c s IH]; [done|].
  cbn [all_space blank]. by rewrite IH, isspace_white.
Qed.

Lemma trimmed_bare (s : string) : trimmed s -> bare s.
Proof.
  intros [Hfirst Hlast]. split; intros c Hc Hin.
  - specialize (Hfirst c Hc). rewrite isspace_white in Hfirst.
    by apply bool_decide_eq_false in Hfirst.
  - specialize (Hlast c Hc). rewrite isspace_white in Hlast.
    by apply bool_decide_eq_false in Hlast.
Qed.

(** [s.strip()] cuts a run of white space from each end of [s] and leaves
    a text with white space at neither end. *)
Lemma strip_cut (s : string) :
  exists l r,
    s = l +:+ strip s +:+ r /\ blank l = true /\ blank r = true
    /\ bare (strip s).
Proof.
  destruct (strip_spec s) as (l & r & Hs & Hl & Hr & Htrim).
  exists l, r. rewrite <- !all_space_blank.
  split; [done|]. split; [done|]. split; [done|]. by apply trimmed_bare.
Qed.

End PolicyFacts.

(** C3: on a state whose last message has the text [text], the router
    returns, without raising: RESEARCH when [text] contains "research" or
    "find facts", each letter in either case; otherwise STUDY when it
    contains "test me" or "explain" in that sense; otherwise GENERAL with
    the topic "General Inquiry".  For RESEARCH and STUDY the topic is what
    is left of the last segment of [text], split at " on " from left to
    right, once the white space at its two ends is cut off; the last
    segment is the whole of [text] when " on " does not occur in it. *)
Theorem C3_router_policy (state : RASAState) (m : message) :
  last (messages state) = Some m ->
  let text := content m in
  exists segs seg l topic r,
    PyStr.splits " on " text (segs ++ [seg])
    /\ ((~ exists a b, text = a +:+ " on " +:+ b) -> seg = text)
    /\ seg = l +:+ topic +:+ r
    /\ PyStr.blank l = true /\ PyStr.blank r = true /\ PyStr.bare topic
    /\ (asks_research text ->
        route_request state
        = Ok {| upd_intent := RESEARCH; upd_research_topic := topic |})
    /\ (~ asks_research text -> asks_study text ->
        route_request state
        = Ok {| upd_intent := STUDY; upd_research_topic := topic |})
    /\ (~ asks_research text -> ~ asks_study text ->
        route_request state
        = Ok {| upd_intent := GENERAL;
                upd_research_topic := "General Inquiry" |}).
Proof.
  intros Hlast text.
  destruct (RouterFacts.topic_segment text) as (segs & seg & Heq & Hsp & Hseg).
  destruct (PolicyFacts.strip_cut seg) as (l & r & Hcut & Hl & Hr & Hbare).
  exists segs, seg, l, (PyStr.strip seg), r.
  split; [exact Hsp|]. split.
  { intros Hno. apply PyStrFacts.contains_false in Hno.
    pose proof (PyStr.splits_end " on " text Hno) as Hone.
    pose proof (PyStrFacts.splits_unique _ _ _ _ Hsp Hone) as Hlist.
    apply (f_equal last) in Hlist. rewrite last_snoc in Hlist.
    by simplify_eq/=. }
  split; [exact Hcut|]. split; [exact Hl|]. split; [exact Hr|].
  split; [exact Hbare|].
  unfold route_request.
  rewrite (RouterFacts.last_item_Some _ _ Hlast). fold text. cbv zeta.
  rewrite Hseg.
  pose proof (PolicyFacts.asks_research_iff text) as Hres.
  pose proof (PolicyFacts.asks_study_iff text) as Hstu.
  destruct (PyStr.contains "research" (PyStr.lower text)
            || PyStr.contains "find facts" (PyStr.lower text)).
  - split; [done|]. split; intros Hn; destruct Hn; by apply Hres.
  - assert (~ asks_research text) as Hnr by (intros H; by apply Hres in H).
    split; [done|].
    destruct (PyStr.contains "test me" (PyStr.lower text)
              || PyStr.contains "explain" (PyStr.lower text)).
    + split; [done|]. intros _ Hn. destruct Hn. by apply Hstu.
    + split; [|done]. intros _ H. by apply Hstu in H.
Qed.

Lemma C3_router_policy_witness :
  (exists seg l topic r,
     seg = l +:+ topic +:+ r
     /\ PyStr.blank l = true /\ PyStr.blank r = true /\ PyStr.bare topic
     /\ route_request
          {| messages := [HumanMessage "Please RESEARCH on   tides  "];
             user_id := 101; research_topic := "Quantum Computing";
             intent := None |}
        = Ok {| upd_intent := RESEARCH; upd_research_topic := topic |})
  /\ (exists topic,
        PyStr.bare topic
        /\ route_request
             {| messages := [HumanMessage " Explain Tides "];
                user_id := 101; research_topic := "Quantum Computing";
                intent := None |}
           = Ok {| upd_intent := STUDY; upd_research_topic := topic |})
  /\ route_request
       {| messages := [HumanMessage "Hello there"]; user_id := 101;
          research_topic := "Quantum Computing"; intent := None |}
     = Ok {| upd_intent := GENERAL; upd_research_topic := "General Inquiry" |}.
Proof.
  split; [|split].
  - destruct (C3_router_policy
                {| messages := [HumanMessage "Please RESEARCH on   tides  "];
                   user_id := 101; research_topic := "Quantum Computing";
                   intent := None |}
                (HumanMessage "Please RESEARCH on   tides  ") eq_refl)
      as (segs & seg & l & topic & r & _ & _ & Hcut & Hl & Hr & Hbare
          & Hres & _).
    exists seg, l, topic, r. split; [exact Hcut|]. split; [exact Hl|].
    split; [exact Hr|]. split; [exact Hbare|].
    apply Hres. left. exists "Please ", "RESEARCH", " on   tides  ".
    split; reflexivity.
  - destruct (C3_router_policy
                {| messages := [HumanMessage " Explain Tides "];
                   user_id := 101; research_topic := "Quantum Computing";
                   intent := None |}
                (HumanMessage " Explain Tides ") eq_refl)
      as (segs & seg & l & topic & r & _ & _ & _ & _ & _ & Hbare
          & _ & Hstu & _).
    exists topic. split; [exact Hbare|]. apply Hstu.
    + intros H. apply PolicyFacts.asks_research_iff in H.
      vm_compute in H. discriminate H.
    + right. exists " ", "Explain", " Tides ". split; reflexivity.
  - destruct (C3_router_policy
                {| messages := [HumanMessage "Hello there"]; user_id := 101;
                   research_topic := "Quantum Computing"; intent := None |}
                (HumanMessage "Hello there") eq_refl)
      as (segs & seg & l & topic & r & _ & _ & _ & _ & _ & _
          & _ & _ & Hgen).
    apply Hgen.
    + intros H. apply PolicyFacts.asks_research_iff in H.
      vm_compute in H. discriminate H.
    + intros H. apply PolicyFacts.asks_study_iff in H.
      vm_compute in H. discriminate H.
Defined.

(** C4: for the message "Test me on Quantum Computing. What is a qubit?",
    whatever the earlier messages and the other keys of the state, the
    router returns intent STUDY and the topic "Quantum Computing. What is a
    qubit?". *)
Theorem C4_study_query_routes_to_study
    (earlier : list message) (uid : Z) (topic : string) (i : option Intent) :
  route_request
    {| messages := earlier ++ [HumanMessage study_query];
       user_id := uid; research_topic := topic; intent := i |}
  = Ok {| upd_intent := STUDY;
          upd_research_topic := "Quantum Computing. What is a qubit?" |}.
Proof.
  unfold route_request. cbn [messages].
  by rewrite RouterFacts.last_item_snoc.
Qed.

(** ** The research bank *)

Module BankFacts.
Import PyStr PyStrFacts.

Lemma bullets_join (x : string) (items : list string) :
  LF +:+ "- " +:+ join (LF +:+ "- ") (x :: items) = bullets (x :: items).
Proof.
  revert x. induction items as [|y items IH]; intros x.
  - simpl. by rewrite str_app_nil_r.
  - change (join (LF +:+ "- ") (x :: y :: items))
      with (x +:+ (LF +:+ "- ") +:+ join (LF +:+ "- ") (y :: items)).
    change (bullets (x :: y :: items))
      with (LF +:+ "- " +:+ x +:+ bullets (y :: items)).
    rewrite <- IH. by rewrite !str_app_assoc.
Qed.

Lemma bullets_app (l1 l2 : list string) :
  bullets (l1 ++ l2) = bullets l1 +:+ bullets l2.
Proof.
  induction l1 as [|x l1 IH]; [done|].
  cbn [bullets app]. by rewrite IH, !str_app_assoc.
Qed.

(** [save_finding] in closed form: it never raises, and the world it
    leaves differs from the one it found in one ledger and one log
    record. *)
Lemma save_finding_run (w : world) (uid : Z) (topic finding : string) :
  save_finding uid topic finding w
  = (Ok (confirmation topic),
     {| db := <[uid := <[topic := findings_of w uid topic ++ [finding]]>
                          (default ∅ (db w !! uid))]> (db w);
        logged := logged w ++ [save_record uid topic] |}).
Proof.
  destruct w as [d lg].
  unfold save_finding, findings_of, ledger, confirmation, save_record,
    getitem, raise, mbind, M_bind, mret, M_ret, get_db, put_db, emit.
  cbn [db logged].
  destruct (d !! uid) as [u|] eqn:Hu; cbn [db logged].
  - rewrite Hu. cbn [default option_bind].
    destruct (u !! topic) as [l|] eqn:Hl; cbn [db logged].
    + by rewrite Hu, Hl.
    + rewrite !lookup_insert_eq. cbn [db logged default].
      by rewrite !insert_insert_eq.
  - rewrite lookup_insert_eq, lookup_empty. cbn [db logged].
    rewrite !lookup_insert_eq. cbn [db logged default option_bind].
    by rewrite !insert_insert_eq.
Qed.

Lemma ledger_save_same (w : world) (uid : Z) (topic finding : string) :
  ledger (snd (save_finding uid topic finding w)) uid topic
  = Some (findings_of w uid topic ++ [finding]).
Proof.
  rewrite save_finding_run. unfold ledger. cbn [snd db].
  rewrite lookup_insert_eq. cbn. by rewrite lookup_insert_eq.
Qed.

Lemma ledger_save_other (w : world) (uid uid' : Z)
    (topic topic' finding : string) :
  (uid', topic') <> (uid, topic) ->
  ledger (snd (save_finding uid topic finding w)) uid' topic'
  = ledger w uid' topic'.
Proof.
  intros Hne. rewrite save_finding_run. unfold ledger. cbn [snd db].
  destruct (decide (uid' = uid)) as [->|Hu].
  - rewrite lookup_insert_eq. cbn.
    rewrite lookup_insert_ne by congruence.
    destruct (db w !! uid); [done|]. cbn. by rewrite lookup_empty.
  - by rewrite lookup_insert_ne.
Qed.

(** [summarize_topic_knowledge] in closed form: it never raises and
    leaves the bank as it is. *)
Lemma summarize_run (w : world) (uid : Z) (topic : string) :
  summarize_topic_knowledge uid topic w
  = (Ok ("Existing knowledge on '" +:+ topic +:+ "':" +:+ LF +:+ "- "
         +:+ join (LF +:+ "- ")
               (default [no_findings] (ledger w uid topic))),
     {| db := db w;
        logged := logged w ++
          [(INFO, "Retrieved knowledge summary for user " +:+ pretty uid
                  +:+ " on '" +:+ topic +:+ "'.")] |}).
Proof.
  unfold summarize_topic_knowledge, ledger,
    mbind, M_bind, mret, M_ret, get_db, emit. cbn [db logged].
  destruct (db w !! uid) as [u|]; cbn; [done|].
  by rewrite lookup_empty.
Qed.

Lemma save_all_run (fs : list string) (w : world) (uid : Z)
    (topic : string) :
  exists w',
    save_all uid topic fs w = (Ok tt, w')
    /\ findings_of w' uid topic = findings_of w uid topic ++ fs
    /\ (fs <> [] -> ledger w' uid topic
                    = Some (findings_of w uid topic ++ fs)).
Proof.
  revert w. induction fs as [|f fs IH]; intros w.
  - exists w. split; [done|]. split; [by rewrite app_nil_r|done].
  - cbn [save_all]. unfold mbind, M_bind.
    pose proof (ledger_save_same w uid topic f) as Hsame.
    destruct (save_finding uid topic f w) as [r w1] eqn:Hrun.
    rewrite save_finding_run in Hrun. injection Hrun as <- Hw1.
    cbn [snd] in Hsame.
    destruct (IH w1) as (w' & Hsave & Hall & Hsome).
    exists w'. split; [done|].
    assert (findings_of w1 uid topic = findings_of w uid topic ++ [f])
      as Hf1 by (unfold findings_of; by rewrite Hsame).
    rewrite Hf1, <- app_assoc in Hall. split; [done|]. intros _.
    destruct fs as [|g fs].
    + cbn in Hsave. injection Hsave as <-. by rewrite Hsame.
    + rewrite Hsome by done. by rewrite Hf1, <- app_assoc.
Qed.

End BankFacts.

(** C5: after [save_finding] has been called for [f1..fn] in that order
    (n at least 1), all for one user and one topic, the saves succeed and
    [summarize_topic_knowledge] for that user and topic returns the header
    followed by one bullet per stored finding: those the ledger already
    held, then [f1..fn] in the order saved, one bullet per call, equal
    findings included.  On a ledger that did not exist before, the bullets
    are exactly [f1..fn]. *)
Theorem C5_summary_lists_saved_findings_in_order
    (w : world) (uid : Z) (topic f : string) (fs : list string) :
  exists w1 w2,
    save_all uid topic (f :: fs) w = (Ok tt, w1)
    /\ ledger w1 uid topic
       = Some (findings_of w uid topic ++ f :: fs)
    /\ summarize_topic_knowledge uid topic w1
       = (Ok ("Existing knowledge on '" +:+ topic +:+ "':"
              +:+ bullets (findings_of w uid topic)
              +:+ bullets (f :: fs)), w2)
    /\ db w2 = db w1
    /\ (ledger w uid topic = None ->
        fst (summarize_topic_knowledge uid topic w1)
        = Ok ("Existing knowledge on '" +:+ topic +:+ "':"
              +:+ bullets (f :: fs))).
Proof.
  destruct (BankFacts.save_all_run (f :: fs) w uid topic)
    as (w1 & Hsave & _ & Hled).
  specialize (Hled ltac:(done)).
  assert (fst (summarize_topic_knowledge uid topic w1)
          = Ok ("Existing knowledge on '" +:+ topic +:+ "':"
                +:+ bullets (findings_of w uid topic)
                +:+ bullets (f :: fs))) as Hsum.
  { rewrite BankFacts.summarize_run, Hled. cbn [fst default].
    f_equal. apply (f_equal (String.append _)).
    apply (f_equal (String.append _)). apply (f_equal (String.append _)).
    destruct (findings_of w uid topic ++ f :: fs) as [|x l] eqn:Hl.
    { by destruct (findings_of w uid topic). }
    unfold id. by rewrite BankFacts.bullets_join, <- Hl, BankFacts.bullets_app. }
  eexists w1, _. split; [exact Hsave|]. split; [exact Hled|].
  split; [|split].
  - rewrite BankFacts.summarize_run in Hsum |- *. cbn [fst] in Hsum.
    rewrite Hsum. reflexivity.
  - reflexivity.
  - intros Hnone. rewrite Hsum. unfold findings_of.
    by rewrite Hnone.
Qed.

Lemma C5_summary_lists_saved_findings_in_order_witness :
  fst (summarize_topic_knowledge 7 "Tides"
         (snd (save_all 7 "Tides" ["a"; "b"; "a"] RESEARCH_BANK)))
  = Ok ("Existing knowledge on 'Tides':"
        +:+ bullets ["a"; "b"; "a"]).
Proof.
  destruct (C5_summary_lists_saved_findings_in_order
              RESEARCH_BANK 7 "Tides" "a" ["b"; "a"])
    as (w1 & w2 & Hsave & _ & _ & _ & Hfresh).
  rewrite Hsave. cbn [snd]. apply Hfresh. reflexivity.
Defined.

(** C6: when the user is unknown to the bank, or the user is known and
    the topic is not among the user's topics, [summarize_topic_knowledge]
    does not raise, leaves the bank as it is, and returns the header
    followed by the single bullet "No current findings on this topic.". *)
Theorem C6_summary_of_unknown_is_placeholder
    (w : world) (uid : Z) (topic : string) :
  (db w !! uid = None
   \/ exists u, db w !! uid = Some u /\ u !! topic = None) ->
  exists w',
    summarize_topic_knowledge uid topic w
    = (Ok ("Existing knowledge on '" +:+ topic +:+ "':" +:+ PyStr.LF
           +:+ "- No current findings on this topic."), w')
    /\ db w' = db w.
Proof.
  intros Hunknown.
  assert (ledger w uid topic = None) as Hnone.
  { unfold ledger.
    destruct Hunknown as [->|(u & -> & Hu)]; [done|exact Hu]. }
  rewrite BankFacts.summarize_run, Hnone.
  eexists. split; reflexivity.
Qed.

Lemma C6_summary_of_unknown_is_placeholder_witness :
  exists w',
    summarize_topic_knowledge 101 "Tides" RESEARCH_BANK
    = (Ok ("Existing knowledge on 'Tides':" +:+ PyStr.LF
           +:+ "- No current findings on this topic."), w')
    /\ db w' = db RESEARCH_BANK.
Proof.
  apply C6_summary_of_unknown_is_placeholder. right.
  exists {[ "Quantum Computing" := ["Initial notes on Qubit entanglement."] ]}.
  split; reflexivity.
Defined.

(** C7: [save_finding] never raises.  It returns the confirmation text,
    leaves the finding at the end of the ledger of the user and topic
    (a ledger that was absent, with or without its user, now holds the
    finding alone), leaves every other user's record and every other
    ledger as it was, and hands one WARNING record to the logger. *)
Theorem C7_save_finding_appends
    (w : world) (uid : Z) (topic finding : string) :
  exists w',
    save_finding uid topic finding w
    = (Ok ("Finding successfully saved to Research Bank under topic '"
           +:+ topic +:+ "'."), w')
    /\ ledger w' uid topic
       = Some (default [] (ledger w uid topic) ++ [finding])
    /\ (forall uid', uid' <> uid -> db w' !! uid' = db w !! uid')
    /\ (forall uid' topic', (uid', topic') <> (uid, topic) ->
          ledger w' uid' topic' = ledger w uid' topic')
    /\ logged w' = logged w ++
         [(WARNING, "Finding saved: User " +:+ pretty uid
                    +:+ " added finding to topic '" +:+ topic +:+ "'.")].
Proof.
  pose proof (BankFacts.ledger_save_same w uid topic finding) as Hsame.
  pose proof (fun uid' topic' =>
    BankFacts.ledger_save_other w uid uid' topic topic' finding) as Hother.
  rewrite BankFacts.save_finding_run in Hsame, Hother |- *.
  cbn [snd] in Hsame, Hother.
  eexists. split; [reflexivity|]. split; [exact Hsame|].
  split; [|split; [exact Hother|reflexivity]].
  intros uid' Hne. cbn [db]. by rewrite lookup_insert_ne.
Qed.

Lemma C7_save_finding_appends_witness :
  exists w',
    save_finding 101 "Quantum Computing" "Qubits decohere." RESEARCH_BANK
    = (Ok "Finding successfully saved to Research Bank under topic 'Quantum Computing'.",
       w')
    /\ ledger w' 101 "Quantum Computing"
       = Some ["Initial notes on Qubit entanglement."; "Qubits decohere."]
    /\ db w' !! 102 = None
    /\ ledger w' 101 "Tides" = None.
Proof.
  destruct (C7_save_finding_appends
              RESEARCH_BANK 101 "Quantum Computing" "Qubits decohere.")
    as (w' & Hrun & Hsame & Husers & Hother & _).
  exists w'. split; [exact Hrun|]. split; [exact Hsame|]. split.
  - rewrite Husers; [reflexivity|lia].
  - rewrite Hother; [reflexivity|]. intros H. discriminate H.
Defined.

(** C10: the bank the module starts with holds, for user 101 and the
    topic "Quantum Computing", the single finding "Initial notes on Qubit
    entanglement.", and the summary for that pair lists it; every other
    pair of user and topic has no ledger, and its summary is the
    placeholder. *)
Theorem C10_bank_starts_seeded :
  ledger RESEARCH_BANK 101 "Quantum Computing"
  = Some ["Initial notes on Qubit entanglement."]
  /\ fst (summarize_topic_knowledge 101 "Quantum Computing" RESEARCH_BANK)
     = Ok ("Existing knowledge on 'Quantum Computing':" +:+ PyStr.LF
           +:+ "- Initial notes on Qubit entanglement.")
  /\ (forall uid topic,
        (uid, topic) <> (101, "Quantum Computing") ->
        ledger RESEARCH_BANK uid topic = None
        /\ fst (summarize_topic_knowledge uid topic RESEARCH_BANK)
           = Ok ("Existing knowledge on '" +:+ topic +:+ "':" +:+ PyStr.LF
                 +:+ "- No current findings on this topic.")).
Proof.
  split; [reflexivity|]. split; [reflexivity|].
  intros uid topic Hne.
  assert (ledger RESEARCH_BANK uid topic = None) as Hnone.
  { unfold ledger, RESEARCH_BANK. cbn [db].
    destruct (decide (uid = 101)) as [->|Hu].
    - rewrite lookup_singleton_eq. cbn.
      apply lookup_singleton_ne. congruence.
    - by rewrite lookup_singleton_ne. }
  split; [exact Hnone|].
  by rewrite BankFacts.summarize_run, Hnone.
Qed.

Lemma C10_bank_starts_seeded_witness :
  ledger RESEARCH_BANK 101 "quantum computing" = None
  /\ fst (summarize_topic_knowledge 101 "quantum computing" RESEARCH_BANK)
     = Ok ("Existing knowledge on 'quantum computing':" +:+ PyStr.LF
           +:+ "- No current findings on this topic.").
Proof.
  destruct C10_bank_starts_seeded as (_ & _ & Hrest).
  apply Hrest. intros H. discriminate H.
Defined.

(** ** The graph *)

Section GraphFacts.

Variable llm_with_tools : list message -> string * list tool_call.
Variable llm : string -> string * list tool_call.
Variable tool_node : RASAState -> M (list message).

Local Abbreviation run_step := (step llm_with_tools llm tool_node).
Local Abbreviation run_visits := (visits llm_with_tools llm tool_node).
Local Abbreviation batch := (issues_tool_batch llm_with_tools).
Local Abbreviation agent := (research_agent llm_with_tools).

Lemma successor_after_research (state : RASAState) (c : string)
    (tcs : list tool_call) :
  successor N_research_agent (add_messages state [AIMessage c tcs])
  = Ok (match tcs with _ :: _ => N_tool_executor | [] => N_END end).
Proof.
  unfold successor, conditional_edges, check_agent_status.
  cbn [messages add_messages].
  rewrite RouterFacts.last_item_snoc. by destruct tcs.
Qed.

Lemma step_research (state : RASAState) (w : world) :
  run_step N_research_agent state w
  = (Ok (if batch (N_research_agent, state)
         then N_tool_executor else N_END,
         add_messages state (agent state)), w).
Proof.
  unfold step, run_node, mbind, M_bind, mret, M_ret, lift.
  unfold research_agent at 1.
  rewrite successor_after_research.
  unfold issues_tool_batch, research_agent.
  by destruct (snd (llm_with_tools _)).
Qed.

Lemma step_tool_executor (state state' : RASAState) (w w' : world)
    (n' : node) :
  run_step N_tool_executor state w = (Ok (n', state'), w') ->
  n' = N_research_agent.
Proof.
  unfold step, run_node, mbind, M_bind, mret, M_ret, lift.
  destruct (tool_node state w) as [[new|e] w1]; [|done].
  cbn. by intros [= <- _ _].
Qed.

Lemma step_never_enters_tools (n n' : node) (state state' : RASAState)
    (w w' : world) :
  n <> N_research_agent ->
  run_step n state w = (Ok (n', state'), w') -> n' <> N_tool_executor.
Proof.
  intros Hn. unfold step, run_node, mbind, M_bind, mret, M_ret,
    lift.
  destruct n; try done.
  - cbn. by intros [= <- _ _].
  - destruct (route_request state) as [u|e]; [|done].
    cbn. destruct (upd_intent u); by intros [= <- _ _].
  - destruct (study_agent llm state w) as [[new|e] w1]; [|done].
    cbn. by intros [= <- _ _].
  - destruct (tool_node state w) as [[new|e] w1]; [|done].
    cbn. by intros [= <- _ _].
  - cbn. by intros [= <- _ _].
Qed.

Lemma step_follows (n n' : node) (state state' : RASAState)
    (w w' : world) :
  run_step n state w = (Ok (n', state'), w') ->
  follows llm_with_tools (n, state) (n', state').
Proof.
  intros Hstep. unfold follows. cbn [fst]. split; [|split].
  - intros ->. rewrite step_research in Hstep. by simplify_eq.
  - intros ->. by eapply step_tool_executor.
  - intros ->. destruct (decide (n = N_research_agent)) as [->|Hn].
    + rewrite step_research in Hstep.
      destruct (batch (N_research_agent, state)); [done|].
      by simplify_eq.
    + by destruct (step_never_enters_tools _ _ _ _ _ _ Hn Hstep).
Qed.

Lemma visits_unfold (fuel : nat) (n : node) (state : RASAState)
    (w : world) :
  run_visits (S fuel) n state w
  = (n, state) ::
    (if decide (n = N_END) then []
     else match run_step n state w with
          | (Ok (n', state'), w') => run_visits fuel n' state' w'
          | (Raise _, _) => []
          end).
Proof. by destruct n. Qed.

Lemma visits_head (fuel : nat) (n : node) (state : RASAState) (w : world)
    (v : node * RASAState) :
  run_visits fuel n state w !! 0%nat = Some v -> v = (n, state).
Proof. destruct fuel; [done|]. rewrite visits_unfold. by intros [= <-]. Qed.

(** Neighbours in the list of visits respect [follows]. *)
Lemma visits_follow (fuel : nat) (n : node) (state : RASAState)
    (w : world) (i : nat) (v v' : node * RASAState) :
  run_visits fuel n state w !! i = Some v ->
  run_visits fuel n state w !! S i = Some v' ->
  follows llm_with_tools v v'.
Proof.
  revert n state w i. induction fuel as [|fuel IH]; intros n state w i;
    [done|].
  rewrite visits_unfold. destruct i as [|i]; cbn [lookup list_lookup].
  - intros [= <-]. case_decide; [done|].
    destruct (run_step n state w) as [[[n' state']|e] w'] eqn:Hstep; [|done].
    intros Hv'. apply visits_head in Hv' as ->. by eapply step_follows.
  - case_decide; [done|].
    destruct (run_step n state w) as [[[n' state']|e] w'] eqn:Hstep; [|done].
    apply IH.
Qed.

Lemma completed_cons (v : node * RASAState)
    (t : list (node * RASAState)) :
  fst v <> N_END -> completed (v :: t) -> completed t.
Proof.
  unfold completed. destruct t as [|x t]; [|done].
  cbn. intros Hv [= H]. done.
Qed.

(** In a run that reaches END, the tool executor has run once for each
    answer of the research agent that carried tool calls (and once more
    if the run was started at the tool executor itself). *)
Lemma completed_tool_visits (fuel : nat) (n : node) (state : RASAState)
    (w : world) :
  completed (run_visits fuel n state w) ->
  count is_tool_visit (run_visits fuel n state w)
  = (count batch (run_visits fuel n state w)
     + if decide (n = N_tool_executor) then 1 else 0)%nat.
Proof.
  revert n state w. induction fuel as [|fuel IH]; intros n state w;
    [done|].
  rewrite visits_unfold. case_decide as Hend.
  { subst n. intros _. by vm_compute. }
  intros Hdone. apply completed_cons in Hdone; [|done].
  destruct (run_step n state w) as [[[n' state']|e] w'] eqn:Hstep; [|done].
  specialize (IH _ _ _ Hdone). unfold count in *.
  cbn [List.filter]. 
  destruct (step_follows _ _ _ _ _ _ Hstep) as (Hres & Htool & Hback).
  cbn [fst] in Hres, Htool, Hback.
  destruct (decide (n = N_tool_executor)) as [->|Hnt].
  - pose proof (Htool eq_refl) as ->.
    change (is_tool_visit (N_tool_executor, state)) with true.
    change (batch (N_tool_executor, state)) with false.
    cbn [length]. rewrite IH. by case_decide.
  - assert (is_tool_visit (n, state) = false) as ->.
    { unfold is_tool_visit. by apply bool_decide_eq_false_2. }
    destruct (decide (n = N_research_agent)) as [->|Hnr].
    + pose proof (Hres eq_refl) as Hn'.
      destruct (batch (N_research_agent, state)); subst n';
        cbn [length]; rewrite IH; case_decide; try done; lia.
    + assert (batch (n, state) = false) as -> by (by destruct n).
      rewrite IH. case_decide as Hn'; [|lia].
      by destruct (Hback Hn').
Qed.

End GraphFacts.

(** C8: the research agent appends one assistant message; the node that
    runs next is the tool executor when that message carries at least one
    tool call and END when it carries none.  After the tool executor the
    research agent runs.  In the list of nodes visited by a run started at
    START, the tool executor stands only directly after a research visit
    whose answer carried tool calls and directly before a research visit,
    and in a run that reaches END the tool executor has been visited
    exactly once per such answer. *)
Theorem C8_tool_loop
    (llm_with_tools : list message -> string * list tool_call)
    (llm : string -> string * list tool_call)
    (tool_node : RASAState -> M (list message)) :
  (forall state, exists c tcs,
      research_agent llm_with_tools state = [AIMessage c tcs]
      /\ successor N_research_agent
           (add_messages state (research_agent llm_with_tools state))
         = Ok (match tcs with _ :: _ => N_tool_executor | [] => N_END end))
  /\ (forall state, successor N_tool_executor state = Ok N_research_agent)
  /\ (forall fuel state w i v v',
        visits llm_with_tools llm tool_node fuel N_START state w !! i
          = Some v ->
        visits llm_with_tools llm tool_node fuel N_START state w !! S i
          = Some v' ->
        follows llm_with_tools v v')
  /\ (forall fuel state w,
        completed (visits llm_with_tools llm tool_node fuel N_START state w) ->
        count is_tool_visit
          (visits llm_with_tools llm tool_node fuel N_START state w)
        = count (issues_tool_batch llm_with_tools)
            (visits llm_with_tools llm tool_node fuel N_START state w)).
Proof.
  split; [|split; [|split]].
  - intros state. eexists _, _. split; [reflexivity|].
    apply successor_after_research.
  - reflexivity.
  - intros fuel state w i v v'. apply visits_follow.
  - intros fuel state w Hdone.
    rewrite (completed_tool_visits _ _ _ _ _ _ _ Hdone).
    case_decide; [done|lia].
Qed.

Lemma C8_tool_loop_witness :
  fst <$> visits demo_llm_with_tools demo_llm demo_tool_node 10
            N_START demo_state RESEARCH_BANK
  = [N_START; N_router; N_research_agent; N_tool_executor;
     N_research_agent; N_END]
  /\ (exists v v',
        visits demo_llm_with_tools demo_llm demo_tool_node 10
          N_START demo_state RESEARCH_BANK !! 2%nat = Some v
        /\ visits demo_llm_with_tools demo_llm demo_tool_node 10
             N_START demo_state RESEARCH_BANK !! 3%nat = Some v'
        /\ follows demo_llm_with_tools v v')
  /\ count is_tool_visit
       (visits demo_llm_with_tools demo_llm demo_tool_node 10
          N_START demo_state RESEARCH_BANK) = 1%nat
  /\ count is_tool_visit
       (visits demo_llm_with_tools demo_llm demo_tool_node 10
          N_START demo_state RESEARCH_BANK)
     = count (issues_tool_batch demo_llm_with_tools)
         (visits demo_llm_with_tools demo_llm demo_tool_node 10
            N_START demo_state RESEARCH_BANK).
Proof.
  destruct (C8_tool_loop demo_llm_with_tools demo_llm demo_tool_node)
    as (_ & _ & Hnext & Hcount).
  split; [vm_compute; reflexivity|]. split; [|split].
  - eexists _, _. split; [vm_compute; reflexivity|].
    split; [vm_compute; reflexivity|].
    apply (Hnext 10%nat demo_state RESEARCH_BANK 2%nat);
      vm_compute; reflexivity.
  - vm_compute; reflexivity.
  - apply Hcount. vm_compute. reflexivity.
Defined.

(** ** Start-up *)

(** Had [os] been imported, lines 32-33 would do what they are written
    for: raise the diagnostic when the variable is absent or empty, and
    pass when it holds a value. *)
Lemma check_api_key_with_os (globals : list string)
    (environ : gmap string string) :
  "os" ∈ globals ->
  check_api_key globals environ
  = match environ !! "GEMINI_API_KEY" with
    | Some (String _ _) => Ok tt
    | _ => Raise (ValueError
             "GEMINI_API_KEY environment variable not set. Please set it.")
    end.
Proof.
  intros Hos. unfold check_api_key, resolve.
  rewrite bool_decide_eq_true_2 by done.
  by destruct (environ !! "GEMINI_API_KEY") as [[|??]|].
Qed.

(** C9 (the code departs from it): [main.py] never imports [os], so the
    check of lines 32-33 raises NameError whatever the environment holds:
    with the key set it does not pass, and with the key absent the error
    is not the diagnostic written on line 33. *)
Theorem C9_api_key_check_raises_name_error (environ : gmap string string) :
  check_api_key main_globals environ = Raise (NameError "os").
Proof. reflexivity. Qed.

(** * Further properties *)

(** ** The tools, in any order of calls *)

Module ToolFacts.
Import PyStr PyStrFacts BankFacts.

Lemma summarize_db (w : world) (uid : Z) (topic : string) :
  db (snd (summarize_topic_knowledge uid topic w)) = db w.
Proof. by rewrite summarize_run. Qed.

Lemma summarize_logged (w : world) (uid : Z) (topic : string) :
  length (logged (snd (summarize_topic_knowledge uid topic w)))
  = S (length (logged w)).
Proof. rewrite summarize_run. cbn [snd logged]. rewrite length_app. cbn. lia. Qed.

Lemma ledger_db (w w' : world) (uid : Z) (topic : string) :
  db w' = db w -> ledger w' uid topic = ledger w uid topic.
Proof. unfold ledger. by intros ->. Qed.

(** The text of a summary is decided by the ledger alone. *)
Lemma summarize_by_ledger (w w' : world) (uid : Z) (topic : string) :
  ledger w' uid topic = ledger w uid topic ->
  fst (summarize_topic_knowledge uid topic w')
  = fst (summarize_topic_knowledge uid topic w).
Proof. intros H. by rewrite !summarize_run, H. Qed.

Lemma save_logged (w : world) (uid : Z) (topic finding : string) :
  length (logged (snd (save_finding uid topic finding w)))
  = S (length (logged w)).
Proof.
  rewrite save_finding_run. cbn [snd logged]. rewrite length_app. cbn. lia.
Qed.

Lemma save_ok (w : world) (uid : Z) (topic finding : string) :
  fst (save_finding uid topic finding w) = Ok (confirmation topic).
Proof. by rewrite save_finding_run. Qed.

Lemma findings_save (w : world) (uid uid' : Z)
    (topic topic' finding : string) :
  findings_of (snd (save_finding uid topic finding w)) uid' topic'
  = findings_of w uid' topic'
    ++ (if decide ((uid, topic) = (uid', topic')) then [finding] else []).
Proof.
  unfold findings_of. case_decide as Heq.
  - injection Heq as <- <-. by rewrite ledger_save_same.
  - rewrite ledger_save_other by congruence. by rewrite app_nil_r.
Qed.

(** One call of either tool: it returns, the log grows by one record, and
    each ledger grows by what the call saved for it. *)
Lemma run_op_run (o : tool_op) (w : world) :
  exists x w',
    run_op o w = (Ok x, w')
    /\ length (logged w') = S (length (logged w))
    /\ (forall uid topic,
          findings_of w' uid topic
          = findings_of w uid topic ++ saved_for uid topic [o])
    /\ (forall uid topic l,
          ledger w' uid topic = Some l ->
          ledger w uid topic = Some l \/ l <> []).
Proof.
  destruct o as [u t f|u t]; cbn [run_op saved_for].
  - pose proof (save_logged w u t f) as Hlog.
    pose proof (fun uid' topic' =>
      findings_save w u uid' t topic' f) as Hfind.
    pose proof (ledger_save_same w u t f) as Hsame.
    pose proof (fun uid' topic' =>
      ledger_save_other w u uid' t topic' f) as Hother.
    destruct (save_finding u t f w) as [r w'] eqn:Hrun.
    pose proof (save_ok w u t f) as Hok. rewrite Hrun in Hok.
    cbn [fst snd] in *. subst r.
    exists (confirmation t), w'. split; [done|]. split; [done|]. split.
    + intros uid topic. rewrite Hfind. by case_decide.
    + intros uid topic l Hl.
      destruct (decide ((uid, topic) = (u, t))) as [[= -> ->]|Hne].
      * right. rewrite Hsame in Hl. injection Hl as <-.
        by destruct (findings_of w u t).
      * left. by rewrite <- Hother.
  - pose proof (summarize_logged w u t) as Hlog.
    pose proof (summarize_db w u t) as Hdb.
    rewrite summarize_run in Hlog, Hdb |- *. cbn [snd] in Hlog, Hdb.
    eexists _, _. split; [reflexivity|]. split; [exact Hlog|]. split.
    + intros uid topic. unfold findings_of.
      rewrite (ledger_db _ _ _ _ Hdb). by rewrite app_nil_r.
    + intros uid topic l Hl. left. by rewrite <- (ledger_db _ _ _ _ Hdb).
Qed.

Lemma saved_for_cons (uid : Z) (topic : string) (o : tool_op)
    (ops : list tool_op) :
  saved_for uid topic (o :: ops)
  = saved_for uid topic [o] ++ saved_for uid topic ops.
Proof. destruct o; cbn [saved_for]; [by case_decide|done]. Qed.

Lemma run_ops_run (ops : list tool_op) (w : world) :
  exists outs w',
    run_ops ops w = (Ok outs, w')
    /\ length outs = length ops
    /\ length (logged w') = (length (logged w) + length ops)%nat
    /\ (forall uid topic,
          findings_of w' uid topic
          = findings_of w uid topic ++ saved_for uid topic ops)
    /\ (forall uid topic l,
          ledger w' uid topic = Some l ->
          ledger w uid topic = Some l \/ l <> []).
Proof.
  revert w. induction ops as [|o ops IH]; intros w.
  - exists [], w. split; [done|]. split; [done|]. split; [cbn; lia|].
    split; [intros; by rewrite app_nil_r|by left].
  - destruct (run_op_run o w) as (x & w1 & Hrun & Hlog & Hfind & Hne).
    destruct (IH w1) as (outs & w' & Hruns & Hlen & Hlogs & Hfinds & Hnes).
    exists (x :: outs), w'. cbn [run_ops]. unfold mbind, M_bind.
    rewrite Hrun, Hruns. cbn [mret M_ret]. split; [done|].
    split; [cbn; lia|]. split; [cbn; lia|]. split.
    + intros uid topic.
      by rewrite Hfinds, Hfind, (saved_for_cons _ _ o ops), app_assoc.
    + intros uid topic l Hl.
      destruct (Hnes _ _ _ Hl) as [Hl1|?]; [|by right]. by eapply Hne.
Qed.

Lemma summary_bullets (w : world) (uid : Z) (topic : string) :
  (forall l, ledger w uid topic = Some l -> l <> []) ->
  exists items,
    items <> []
    /\ items = default [no_findings] (ledger w uid topic)
    /\ fst (summarize_topic_knowledge uid topic w)
       = Ok ("Existing knowledge on '" +:+ topic +:+ "':"
             +:+ bullets items).
Proof.
  intros Hne. exists (default [no_findings] (ledger w uid topic)).
  assert (default [no_findings] (ledger w uid topic) <> []) as Hitems.
  { destruct (ledger w uid topic) as [l|]; [by apply Hne|done]. }
  split; [done|]. split; [done|]. rewrite summarize_run. cbn [fst].
  destruct (default [no_findings] (ledger w uid topic)) as [|x l]; [done|].
  by rewrite <- bullets_join.
Qed.

Lemma seeded_ledgers (uid : Z) (topic : string) (l : list string) :
  ledger RESEARCH_BANK uid topic = Some l -> l <> [].
Proof.
  unfold ledger, RESEARCH_BANK. cbn [db].
  destruct (decide (uid = 101)) as [->|Hu].
  - rewrite lookup_singleton_eq. cbn.
    destruct (decide (topic = "Quantum Computing")) as [->|Ht].
    + rewrite lookup_singleton_eq. by intros [= <-].
    + by rewrite lookup_singleton_ne.
  - by rewrite lookup_singleton_ne.
Qed.

End ToolFacts.

(** X1: whatever sequence of [save_finding] and
    [summarize_topic_knowledge] calls is made, for whichever users and
    topics, no call raises, each call returns one text, and afterwards the
    findings of any user and topic are those held before followed by the
    findings saved for that user and topic, in call order: calls for other
    users or topics and summaries in between neither drop, reorder nor add
    anything. *)
Theorem X1_interleaved_calls_accumulate
    (ops : list tool_op) (w : world) (uid : Z) (topic : string) :
  exists outs w',
    run_ops ops w = (Ok outs, w')
    /\ length outs = length ops
    /\ findings_of w' uid topic
       = findings_of w uid topic ++ saved_for uid topic ops.
Proof.
  destruct (ToolFacts.run_ops_run ops w)
    as (outs & w' & Hrun & Hlen & _ & Hfind & _).
  by exists outs, w'.
Qed.

Lemma run_op_logged (o : tool_op) (w : world) :
  logged (snd (run_op o w)) = logged w ++ [log_record_of o].
Proof.
  destruct o as [u t f|u t]; cbn [run_op log_record_of].
  - by rewrite BankFacts.save_finding_run.
  - by rewrite BankFacts.summarize_run.
Qed.

(** X2: every tool call hands exactly one record to the logger, a WARNING
    naming user and topic for a save and an INFO for a summary; after any
    sequence of calls the log is the earlier log followed by these records
    in call order. *)
Theorem X2_one_log_record_per_call (ops : list tool_op) (w : world) :
  logged (snd (run_ops ops w)) = logged w ++ (log_record_of <$> ops).
Proof.
  revert w. induction ops as [|o ops IH]; intros w.
  - cbn. by rewrite app_nil_r.
  - pose proof (run_op_logged o w) as Hlog.
    destruct (ToolFacts.run_op_run o w) as (x & w1 & Hrun & _).
    destruct (ToolFacts.run_ops_run ops w1) as (outs & w' & Hruns & _).
    specialize (IH w1). rewrite Hrun in Hlog. rewrite Hruns in IH.
    cbn [snd] in Hlog, IH.
    cbn [run_ops]. unfold mbind, M_bind. rewrite Hrun, Hruns.
    cbn [mret M_ret snd fmap list_fmap].
    by rewrite IH, Hlog, <- app_assoc.
Qed.

(** X3: [summarize_topic_knowledge] only reads the bank: after a summary
    for any user and topic the dictionary is the same, and a summary asked
    again, for the same or another user and topic, reads as it would have
    before. *)
Theorem X3_summarize_only_reads
    (w : world) (uid uid' : Z) (topic topic' : string) :
  db (snd (summarize_topic_knowledge uid' topic' w)) = db w
  /\ fst (summarize_topic_knowledge uid topic
            (snd (summarize_topic_knowledge uid' topic' w)))
     = fst (summarize_topic_knowledge uid topic w).
Proof.
  split; [apply ToolFacts.summarize_db|].
  apply ToolFacts.summarize_by_ledger, ToolFacts.ledger_db,
    ToolFacts.summarize_db.
Qed.

(** X4: saving a finding for one user and topic does not change what a
    summary for any other user or topic returns; topics are told apart by
    exact spelling. *)
Theorem X4_save_leaves_other_summaries
    (w : world) (uid uid' : Z) (topic topic' finding : string) :
  (uid', topic') <> (uid, topic) ->
  fst (summarize_topic_knowledge uid' topic'
         (snd (save_finding uid topic finding w)))
  = fst (summarize_topic_knowledge uid' topic' w).
Proof.
  intros Hne. apply ToolFacts.summarize_by_ledger.
  by apply BankFacts.ledger_save_other.
Qed.

Lemma X4_save_leaves_other_summaries_witness :
  fst (summarize_topic_knowledge 101 "Quantum Computing"
         (snd (save_finding 101 "quantum computing" "Lower case."
                 RESEARCH_BANK)))
  = fst (summarize_topic_knowledge 101 "Quantum Computing" RESEARCH_BANK).
Proof.
  apply X4_save_leaves_other_summaries. intros H. discriminate H.
Defined.

Lemma save_db (w : world) (uid : Z) (topic finding : string) :
  db (snd (save_finding uid topic finding w))
  = <[uid := <[topic := findings_of w uid topic ++ [finding]]>
               (default ∅ (db w !! uid))]> (db w).
Proof. by rewrite BankFacts.save_finding_run. Qed.

(** X5: two saves for different users, or for different topics of one
    user, leave the same dictionary in either order. *)
Theorem X5_saves_elsewhere_commute
    (w : world) (u1 u2 : Z) (t1 t2 f1 f2 : string) :
  (u1, t1) <> (u2, t2) ->
  db (snd (save_finding u2 t2 f2 (snd (save_finding u1 t1 f1 w))))
  = db (snd (save_finding u1 t1 f1 (snd (save_finding u2 t2 f2 w)))).
Proof.
  intros Hne.
  rewrite (save_db (snd (save_finding u1 t1 f1 w))),
    (save_db (snd (save_finding u2 t2 f2 w))).
  rewrite !ToolFacts.findings_save, !save_db.
  rewrite (decide_False (P := (u1, t1) = (u2, t2))) by done.
  rewrite (decide_False (P := (u2, t2) = (u1, t1))) by congruence.
  rewrite !app_nil_r.
  destruct (decide (u1 = u2)) as [->|Hu].
  - assert (t1 <> t2) as Ht by congruence.
    rewrite !lookup_insert_eq. cbn [default from_option id].
    rewrite !insert_insert_eq. f_equal.
    by apply insert_insert_ne.
  - rewrite !lookup_insert_ne by done.
    by apply insert_insert_ne.
Qed.

Lemma X5_saves_elsewhere_commute_witness :
  db (snd (save_finding 101 "Tides" "b"
             (snd (save_finding 101 "Quantum Computing" "a"
                     RESEARCH_BANK))))
  = db (snd (save_finding 101 "Quantum Computing" "a"
               (snd (save_finding 101 "Tides" "b" RESEARCH_BANK)))).
Proof.
  apply X5_saves_elsewhere_commute. intros H. discriminate H.
Defined.

(** X6: in every bank reached from the initial one by calls of the two
    tools no ledger is empty, so a summary always shows at least one
    bullet: the stored findings, or the placeholder alone when there is no
    ledger. *)
Theorem X6_reachable_banks_have_no_empty_ledger
    (ops : list tool_op) (outs : list string) (w' : world)
    (uid : Z) (topic : string) :
  run_ops ops RESEARCH_BANK = (Ok outs, w') ->
  (forall l, ledger w' uid topic = Some l -> l <> [])
  /\ exists items,
       items <> []
       /\ items = default [no_findings] (ledger w' uid topic)
       /\ fst (summarize_topic_knowledge uid topic w')
          = Ok ("Existing knowledge on '" +:+ topic +:+ "':"
                +:+ bullets items).
Proof.
  intros Hrun.
  destruct (ToolFacts.run_ops_run ops RESEARCH_BANK)
    as (outs0 & w0 & Hrun0 & _ & _ & _ & Hne).
  rewrite Hrun in Hrun0. injection Hrun0 as <- <-.
  assert (forall l, ledger w' uid topic = Some l -> l <> []) as Hok.
  { intros l Hl. destruct (Hne _ _ _ Hl) as [Hseed|?]; [|done].
    by eapply ToolFacts.seeded_ledgers. }
  split; [exact Hok|]. by apply ToolFacts.summary_bullets.
Qed.

Lemma X6_reachable_banks_have_no_empty_ledger_witness :
  exists items,
    items <> []
    /\ fst (summarize_topic_knowledge 7 "Tides"
              (snd (run_ops [Save 7 "Tides" "a"; Summarize 7 "Tides";
                             Save 7 "Tides" "b"] RESEARCH_BANK)))
       = Ok ("Existing knowledge on 'Tides':" +:+ bullets items).
Proof.
  destruct (X6_reachable_banks_have_no_empty_ledger
              [Save 7 "Tides" "a"; Summarize 7 "Tides"; Save 7 "Tides" "b"]
              (match fst (run_ops [Save 7 "Tides" "a"; Summarize 7 "Tides";
                                   Save 7 "Tides" "b"] RESEARCH_BANK) with
               | Ok outs => outs
               | Raise _ => []
               end)
              (snd (run_ops [Save 7 "Tides" "a"; Summarize 7 "Tides";
                             Save 7 "Tides" "b"] RESEARCH_BANK))
              7 "Tides") as (_ & items & Hne & _ & Hsum).
  - vm_compute. reflexivity.
  - by exists items.
Defined.

(** X7: a stored finding that reads "No current findings on this topic."
    cannot be told from no finding at all: saved as the first finding of a
    user and topic, it leaves the summary exactly as it was. *)
Theorem X7_placeholder_finding_is_invisible
    (w : world) (uid : Z) (topic : string) :
  ledger w uid topic = None ->
  ledger (snd (save_finding uid topic no_findings w)) uid topic
  = Some [no_findings]
  /\ fst (summarize_topic_knowledge uid topic
            (snd (save_finding uid topic no_findings w)))
     = fst (summarize_topic_knowledge uid topic w).
Proof.
  intros Hnone.
  pose proof (BankFacts.ledger_save_same w uid topic no_findings) as Hsame.
  unfold findings_of in Hsame. rewrite Hnone in Hsame.
  split; [exact Hsame|].
  by rewrite !BankFacts.summarize_run, Hsame, Hnone.
Qed.

Lemma X7_placeholder_finding_is_invisible_witness :
  fst (summarize_topic_knowledge 7 "Tides"
         (snd (save_finding 7 "Tides" no_findings RESEARCH_BANK)))
  = fst (summarize_topic_knowledge 7 "Tides" RESEARCH_BANK).
Proof.
  apply X7_placeholder_finding_is_invisible. reflexivity.
Defined.

(** ** The router, further *)

Module RouterMore.
Import PyStr PyStrFacts RouterFacts.

Lemma splits_nonempty (sep s : string) (l : list string) :
  splits sep s l -> l <> [].
Proof. by destruct 1. Qed.

(** The last segment of a split is the end of the text. *)
Lemma splits_suffix (sep s : string) (l : list string) (seg : string) :
  splits sep s l -> last l = Some seg -> exists p, s = p +:+ seg.
Proof.
  induction 1 as [s Hs|a b l Hleft Hb IH]; intros Hlast.
  - injection Hlast as <-. by exists "".
  - destruct l as [|x l]; [by apply splits_nonempty in Hb|].
    destruct (IH Hlast) as [p ->].
    exists (a +:+ sep +:+ p). by rewrite !str_app_assoc.
Qed.

Lemma contains_piece (sep s l t r : string) :
  contains sep s = false -> s = l +:+ t +:+ r -> contains sep t = false.
Proof.
  intros Hs ->. apply contains_false. intros (a & b & ->).
  apply contains_false in Hs. destruct Hs.
  exists (l +:+ a), (b +:+ r). by rewrite !str_app_assoc.
Qed.

(** The two ways [route_request] returns. *)
Lemma route_request_cases (state : RASAState) (m : message) :
  last (messages state) = Some m ->
  exists u,
    route_request state = Ok u
    /\ ((upd_intent u = GENERAL /\ upd_research_topic u = "General Inquiry")
        \/ (upd_intent u <> GENERAL
            /\ exists segs seg,
                 splits " on " (content m) (segs ++ [seg])
                 /\ upd_research_topic u = strip seg)).
Proof.
  intros Hlast.
  destruct (topic_segment (content m)) as (segs & seg & _ & Hsp & Hseg).
  unfold route_request. rewrite (last_item_Some _ _ Hlast). cbv zeta.
  rewrite Hseg.
  destruct (contains "research" (lower (content m))
            || contains "find facts" (lower (content m))).
  { eexists. split; [done|]. right. split; [done|]. by exists segs, seg. }
  destruct (contains "test me" (lower (content m))
            || contains "explain" (lower (content m))).
  { eexists. split; [done|]. right. split; [done|]. by exists segs, seg. }
  eexists. split; [done|]. by left.
Qed.

Lemma app_prefix_split (x y x' y' : string) :
  x +:+ y = x' +:+ y' -> (String.length x' <= String.length x)%nat ->
  exists z, x = x' +:+ z.
Proof.
  revert x'. induction x as [|c x IH]; intros [|d x'] Heq Hlen.
  - by exists "".
  - simpl in Hlen. lia.
  - by exists (String c x).
  - rewrite !str_app_cons in Heq. injection Heq as -> Heq.
    simpl in Hlen. destruct (IH x' Heq) as [z ->]; [lia|].
    exists z. by rewrite str_app_cons.
Qed.

(** An occurrence of " on " that no earlier occurrence reaches into is
    the leftmost one. *)
Lemma on_leftmost (a b a' b' : string) :
  contains " on " (a +:+ " on") = false ->
  a +:+ " on " +:+ b = a' +:+ " on " +:+ b' ->
  (String.length a <= String.length a')%nat.
Proof.
  intros Hfree Heq.
  destruct (decide (String.length a <= String.length a')%nat) as [|Hlt];
    [done|].
  apply contains_false in Hfree. destruct Hfree.
  assert ((a +:+ " on") +:+ (" " +:+ b) = (a' +:+ " on ") +:+ b') as Heq'.
  { by rewrite !str_app_assoc. }
  apply app_prefix_split in Heq' as [z Hz].
  - exists a', z. by rewrite Hz, str_app_assoc.
  - rewrite !str_length_app. simpl. lia.
Qed.

End RouterMore.

(** X8: when the router returns RESEARCH or STUDY, the topic it sets is a
    piece of the text of the last message, has no white space at either
    end, and does not contain " on ". *)
Theorem X8_topic_is_a_trimmed_piece
    (state : RASAState) (m : message) (u : RouterUpdate) :
  last (messages state) = Some m ->
  route_request state = Ok u ->
  upd_intent u <> GENERAL ->
  (exists a b, content m = a +:+ upd_research_topic u +:+ b)
  /\ PyStr.trimmed (upd_research_topic u)
  /\ PyStr.contains " on " (upd_research_topic u) = false.
Proof.
  intros Hlast Hu Hng.
  destruct (RouterMore.route_request_cases state m Hlast)
    as (u' & Hu' & Hcases).
  rewrite Hu in Hu'. injection Hu' as <-.
  destruct Hcases as [[Hg _]|(_ & segs & seg & Hsp & Htopic)]; [done|].
  destruct (PyStrFacts.strip_spec seg) as (l & r & Hseg & _ & _ & Htrim).
  destruct (RouterMore.splits_suffix _ _ _ seg Hsp (last_snoc _ _))
    as [p Hp].
  destruct (PyStrFacts.splits_last _ _ _ Hsp) as (segs' & seg' & Heq & Hfree).
  apply app_inj_tail in Heq as [_ <-].
  rewrite Htopic. split; [|split].
  - exists (p +:+ l), r. rewrite Hp. rewrite Hseg at 1.
    by rewrite !PyStrFacts.str_app_assoc.
  - exact Htrim.
  - by eapply RouterMore.contains_piece.
Qed.

Lemma X8_topic_is_a_trimmed_piece_witness :
  (exists a b,
     "Explain the research on  tides " = a +:+ "tides" +:+ b)
  /\ PyStr.trimmed "tides"
  /\ PyStr.contains " on " "tides" = false.
Proof.
  apply (X8_topic_is_a_trimmed_piece
           {| messages := [HumanMessage "Explain the research on  tides "];
              user_id := 101; research_topic := "Quantum Computing";
              intent := None |}
           (HumanMessage "Explain the research on  tides ")
           {| upd_intent := RESEARCH; upd_research_topic := "tides" |}).
  - reflexivity.
  - reflexivity.
  - intros H. discriminate H.
Defined.

(** X9: when " on " occurs in the last message so that no other
    occurrence starts before it or after it, the topic of a RESEARCH or
    STUDY request is the text after it, stripped. *)
Theorem X9_topic_after_single_delimiter
    (state : RASAState) (m : message) (u : RouterUpdate) (a b : string) :
  last (messages state) = Some m ->
  content m = a +:+ " on " +:+ b ->
  PyStr.contains " on " (a +:+ " on") = false ->
  PyStr.contains " on " b = false ->
  route_request state = Ok u ->
  upd_intent u <> GENERAL ->
  upd_research_topic u = PyStr.strip b.
Proof.
  intros Hlast Htext Ha Hb Hu Hng.
  destruct (RouterMore.route_request_cases state m Hlast)
    as (u' & Hu' & Hcases).
  rewrite Hu in Hu'. injection Hu' as <-.
  destruct Hcases as [[Hg _]|(_ & segs & seg & Hsp & Htopic)]; [done|].
  assert (PyStr.splits " on " (content m) [a; b]) as Hab.
  { rewrite Htext. apply PyStr.splits_cut.
    - intros a' b'. by apply RouterMore.on_leftmost.
    - by apply PyStr.splits_end. }
  pose proof (PyStrFacts.splits_unique _ _ _ _ Hsp Hab) as Hl.
  apply (f_equal last) in Hl. rewrite last_snoc in Hl.
  injection Hl as ->. exact Htopic.
Qed.

Lemma X9_topic_after_single_delimiter_witness :
  "Quantum Computing. What is a qubit?"
  = PyStr.strip "Quantum Computing. What is a qubit?".
Proof.
  apply (X9_topic_after_single_delimiter
           {| messages := [HumanMessage study_query]; user_id := 101;
              research_topic := "Quantum Computing"; intent := None |}
           (HumanMessage study_query)
           {| upd_intent := STUDY;
              upd_research_topic := "Quantum Computing. What is a qubit?" |}
           "Test me" "Quantum Computing. What is a qubit?").
  - reflexivity.
  - reflexivity.
  - reflexivity.
  - reflexivity.
  - reflexivity.
  - intros H. discriminate H.
Defined.

(** The text after the last " on " is not always the topic: the split
    goes from left to right and an occurrence that shares its space with
    the one before it is not seen. *)
Example topic_with_shared_space :
  route_request
    {| messages := [HumanMessage "research on on tides"]; user_id := 101;
       research_topic := "Quantum Computing"; intent := None |}
  = Ok {| upd_intent := RESEARCH; upd_research_topic := "on tides" |}.
Proof. reflexivity. Qed.



(** ** Runs of the graph *)

Section GraphRuns.

Variable llm_with_tools : list message -> string * list tool_call.
Variable llm : string -> string * list tool_call.
Variable tool_node : RASAState -> M (list message).

Local Abbreviation one_step := (step llm_with_tools llm tool_node).
Local Abbreviation graph_run := (run_graph llm_with_tools llm tool_node).
Local Abbreviation graph_visits := (visits llm_with_tools llm tool_node).

(** The node the conditional edge after the router leads to. *)
Definition agent_for (i : Intent) : node :=
  match i with
  | RESEARCH => N_research_agent
  | STUDY => N_study_agent
  | GENERAL => N_END
  end.

(** The text the study agent is given as the user's knowledge. *)
Definition knowledge_of (w : world) (state : RASAState) : string :=
  "Existing knowledge on '" +:+ research_topic state +:+ "':"
  +:+ PyStr.LF +:+ "- "
  +:+ PyStr.join (PyStr.LF +:+ "- ")
        (default [no_findings]
           (ledger w (user_id state) (research_topic state))).

Lemma run_graph_unfold (fuel : nat) (n : node) (state : RASAState)
    (w : world) :
  graph_run (S fuel) n state w
  = if decide (n = N_END) then (Ok (Some state), w)
    else match one_step n state w with
         | (Ok r, w') => graph_run fuel (fst r) (snd r) w'
         | (Raise e, w') => (Raise e, w')
         end.
Proof. by destruct n. Qed.

Lemma step_start (state : RASAState) (w : world) :
  one_step N_START state w = (Ok (N_router, state), w).
Proof. reflexivity. Qed.

Lemma step_router (state : RASAState) (w : world) :
  one_step N_router state w
  = match route_request state with
    | Ok u => (Ok (agent_for (upd_intent u), apply_router_update state u), w)
    | Raise e => (Raise e, w)
    end.
Proof.
  unfold step, run_node, mbind, M_bind, mret, M_ret, lift.
  destruct (route_request state) as [u|e]; [|done].
  by destruct u as [[] t].
Qed.

Lemma study_agent_run (state : RASAState) (w : world) (m : message) :
  last (messages state) = Some m ->
  study_agent llm state w
  = (Ok [AIMessage
           (fst (llm (study_prompt (research_topic state)
                        (knowledge_of w state) (content m))))
           (snd (llm (study_prompt (research_topic state)
                        (knowledge_of w state) (content m))))],
     snd (summarize_topic_knowledge (user_id state) (research_topic state)
            w)).
Proof.
  intros Hlast. unfold study_agent, mbind, M_bind, lift.
  rewrite (RouterFacts.last_item_Some _ _ Hlast).
  by rewrite BankFacts.summarize_run.
Qed.

Lemma step_study (state : RASAState) (w : world) (m : message) :
  last (messages state) = Some m ->
  exists c tcs,
    one_step N_study_agent state w
    = (Ok (N_END, add_messages state [AIMessage c tcs]),
       snd (summarize_topic_knowledge (user_id state)
              (research_topic state) w)).
Proof.
  intros Hlast. unfold step, run_node, mbind, M_bind.
  rewrite (study_agent_run _ _ _ Hlast). by eexists _, _.
Qed.

Lemma step_tool (state : RASAState) (w w' : world) (new : list message) :
  tool_node state w = (Ok new, w') ->
  one_step N_tool_executor state w
  = (Ok (N_research_agent, add_messages state new), w').
Proof.
  intros Htool. unfold step, run_node, mbind, M_bind. by rewrite Htool.
Qed.

(** A property of the node about to run and its state that every step
    keeps holds at every visit. *)
Lemma visits_invariant (P : node * RASAState -> Prop) :
  (forall n state w n' state' w',
     P (n, state) -> one_step n state w = (Ok (n', state'), w') ->
     P (n', state')) ->
  forall fuel n state w i v,
    P (n, state) -> graph_visits fuel n state w !! i = Some v -> P v.
Proof.
  intros Hstep. induction fuel as [|fuel IH]; intros n state w i v HP;
    [done|].
  rewrite visits_unfold. destruct i as [|i]; cbn [lookup list_lookup].
  - by intros [= <-].
  - case_decide; [done|].
    destruct (one_step n state w) as [[[n' state']|e] w'] eqn:Hs; [|done].
    apply IH. by eapply Hstep.
Qed.

(** What a step does to the keys of the state. *)
Lemma step_keys (n n' : node) (state state' : RASAState) (w w' : world) :
  one_step n state w = (Ok (n', state'), w') ->
  user_id state' = user_id state
  /\ (exists new, messages state' = messages state ++ new)
  /\ (n <> N_router ->
      research_topic state' = research_topic state
      /\ intent state' = intent state)
  /\ n' <> N_START /\ (n <> N_START -> n' <> N_router).
Proof.
  destruct n.
  - rewrite step_start. intros [= <- <- _].
    split; [done|]. split; [exists []; by rewrite app_nil_r|]. by repeat split.
  - rewrite step_router. destruct (route_request state) as [u|e]; [|done].
    intros [= <- <- _].
    split; [done|]. split; [exists []; by rewrite app_nil_r|].
    split; [done|]. destruct (upd_intent u); (split; [done|by intros _]).
  - rewrite step_research. intros [= <- <- _].
    split; [done|]. split; [by eexists|]. split; [done|].
    destruct (snd (llm_with_tools _)); (split; [done|by intros _]).
  - unfold step, run_node, mbind, M_bind.
    destruct (study_agent llm state w) as [[new|e] w1]; [|done].
    cbn. intros [= <- <- _].
    split; [done|]. split; [by eexists|]. by repeat split.
  - unfold step, run_node, mbind, M_bind.
    destruct (tool_node state w) as [[new|e] w1]; [|done].
    cbn. intros [= <- <- _].
    split; [done|]. split; [by eexists|]. by repeat split.
  - cbn. intros [= <- <- _].
    split; [done|]. split; [exists []; by rewrite app_nil_r|]. by repeat split.
Qed.

End GraphRuns.

Section GraphRunFacts.

Variable llm_with_tools : list message -> string * list tool_call.
Variable llm : string -> string * list tool_call.
Variable tool_node : RASAState -> M (list message).

Local Abbreviation graph_run := (run_graph llm_with_tools llm tool_node).
Local Abbreviation graph_visits := (visits llm_with_tools llm tool_node).

Lemma route_general (state : RASAState) (m : message) :
  last (messages state) = Some m ->
  ~ wants_research (content m) -> ~ wants_study (content m) ->
  route_request state
  = Ok {| upd_intent := GENERAL; upd_research_topic := "General Inquiry" |}.
Proof.
  intros Hlast Hr Hs. unfold route_request.
  rewrite (RouterFacts.last_item_Some _ _ Hlast). cbv zeta.
  rewrite <- RouterFacts.wants_research_iff in Hr.
  rewrite <- RouterFacts.wants_study_iff in Hs.
  apply not_true_is_false in Hr, Hs. by rewrite Hr, Hs.
Qed.

Lemma route_study (state : RASAState) (m : message) :
  last (messages state) = Some m ->
  ~ wants_research (content m) -> wants_study (content m) ->
  exists t,
    route_request state
    = Ok {| upd_intent := STUDY; upd_research_topic := t |}.
Proof.
  intros Hlast Hr Hs.
  destruct (RouterFacts.topic_segment (content m)) as (? & g & _ & _ & Hg).
  unfold route_request.
  rewrite (RouterFacts.last_item_Some _ _ Hlast). cbv zeta.
  rewrite <- RouterFacts.wants_research_iff in Hr.
  rewrite <- RouterFacts.wants_study_iff in Hs.
  apply not_true_is_false in Hr. rewrite Hr, Hs, Hg. by eexists.
Qed.

Lemma graph_run_from_start (k : nat) (state : RASAState) (w : world) :
  graph_run (S (S k)) N_START state w
  = match route_request state with
    | Ok u =>
        graph_run k (agent_for (upd_intent u))
          (apply_router_update state u) w
    | Raise e => (Raise e, w)
    end.
Proof.
  rewrite run_graph_unfold, step_start. cbn [decide_rel node_eq_dec].
  rewrite decide_False by done. cbn [fst snd].
  rewrite run_graph_unfold, step_router. rewrite decide_False by done.
  by destruct (route_request state).
Qed.

Lemma graph_run_loops (fuel : nat) (n : node) (state : RASAState)
    (w : world) :
  (forall p, snd (llm_with_tools p) <> []) ->
  (forall st w0, exists new w1, tool_node st w0 = (Ok new, w1)) ->
  n = N_research_agent \/ n = N_tool_executor ->
  exists w', graph_run fuel n state w = (Ok None, w').
Proof.
  intros Hgreedy Htools. revert n state w.
  induction fuel as [|fuel IH]; intros n state w Hn; [by eexists|].
  rewrite run_graph_unfold. destruct Hn as [-> | ->].
  - rewrite decide_False by done. rewrite step_research. cbn [fst snd].
    unfold issues_tool_batch, research_agent.
    pose proof (Hgreedy (
      [HumanMessage (research_system_prompt (research_topic state))]
      ++ messages state)) as Hp.
    destruct (snd (llm_with_tools _)); [done|]. apply IH. by right.
  - rewrite decide_False by done.
    destruct (Htools state w) as (new & w1 & Htool).
    rewrite (step_tool _ _ _ _ _ _ _ Htool). cbn [fst snd].
    apply IH. by left.
Qed.


(** X12: a message that asks neither for research nor for study ends the
    run right after the router, whatever the models and the tool node
    are: no agent runs, the messages and the bank are as before, and the
    state returned has the intent GENERAL and the topic "General
    Inquiry" in place of whatever the caller passed. *)
Theorem X12_general_request_ends_after_router
    (state : RASAState) (w : world) (m : message) (k : nat) :
  last (messages state) = Some m ->
  ~ wants_research (content m) -> ~ wants_study (content m) ->
  graph_run (S (S (S k))) N_START state w
  = (Ok (Some {| messages := messages state; user_id := user_id state;
                 research_topic := "General Inquiry";
                 intent := Some GENERAL |}), w).
Proof.
  intros Hlast Hr Hs. rewrite graph_run_from_start.
  by rewrite (route_general _ _ Hlast Hr Hs).
Qed.

(** X13: a study request runs the router and the study agent and ends:
    the state returned has the caller's messages followed by exactly one
    assistant message, the same user, and the intent STUDY; the
    dictionary of the bank is unchanged. *)
Theorem X13_study_request_adds_one_answer
    (state : RASAState) (w : world) (m : message) (k : nat) :
  last (messages state) = Some m ->
  ~ wants_research (content m) -> wants_study (content m) ->
  exists final c tcs w',
    graph_run (S (S (S (S k)))) N_START state w = (Ok (Some final), w')
    /\ messages final = messages state ++ [AIMessage c tcs]
    /\ user_id final = user_id state
    /\ intent final = Some STUDY
    /\ db w' = db w.
Proof.
  intros Hlast Hr Hs. rewrite graph_run_from_start.
  destruct (route_study _ _ Hlast Hr Hs) as [t ->]. cbn [upd_intent agent_for].
  rewrite run_graph_unfold, decide_False by done.
  destruct (step_study llm_with_tools llm tool_node
              (apply_router_update state
                 {| upd_intent := STUDY; upd_research_topic := t |}) w m)
    as (c & tcs & ->); [done|].
  cbn [fst snd]. rewrite run_graph_unfold, decide_True by done.
  eexists _, c, tcs, _. split; [reflexivity|].
  split; [done|]. split; [done|]. split; [done|].
  apply ToolFacts.summarize_db.
Qed.

(** X14: when the router sends the request to the research agent and the
    model's first answer carries no tool call, the run ends there: one
    assistant message is added and the bank, its log included, is as it
    was. *)
Theorem X14_research_without_tools_leaves_bank
    (state : RASAState) (w : world) (u : RouterUpdate) (k : nat) :
  route_request state = Ok u ->
  upd_intent u = RESEARCH ->
  snd (llm_with_tools
         (HumanMessage (research_system_prompt (upd_research_topic u))
          :: messages state)) = [] ->
  exists c,
    graph_run (S (S (S (S k)))) N_START state w
    = (Ok (Some {| messages := messages state ++ [AIMessage c []];
                   user_id := user_id state;
                   research_topic := upd_research_topic u;
                   intent := Some RESEARCH |}), w).
Proof.
  intros Hu Hi Hnone. rewrite graph_run_from_start, Hu, Hi.
  cbn [agent_for]. rewrite run_graph_unfold, decide_False by done.
  rewrite step_research. cbn [fst snd].
  unfold issues_tool_batch, research_agent.
  cbn [research_topic messages apply_router_update]. cbn [app].
  rewrite Hnone. rewrite run_graph_unfold, decide_True by done.
  eexists. unfold add_messages. cbn. by rewrite Hi.
Qed.

(** X15: invoked on a state without messages the graph stops in the
    router with IndexError, before any agent or tool has run; the bank is
    untouched. *)
Theorem X15_no_message_stops_in_router
    (state : RASAState) (w : world) (k : nat) :
  messages state = [] ->
  graph_run (S (S k)) N_START state w = (Raise IndexError, w)
  /\ fst <$> graph_visits (S (S k)) N_START state w = [N_START; N_router].
Proof.
  intros Hnil.
  assert (route_request state = Raise IndexError) as Hroute.
  { unfold route_request. by rewrite Hnil. }
  split.
  - by rewrite graph_run_from_start, Hroute.
  - rewrite visits_unfold, decide_False by done. rewrite step_start.
    destruct k as [|k]; cbn [visits]; unfold step, run_node, mbind, M_bind,
      lift; by rewrite Hroute.
Qed.

(** X16: the only way out of the research loop that the graph wires is
    an answer without tool calls: with a model that asks for a tool in
    every answer and a tool node that returns, a research request never
    reaches END, however many visits are allowed (the code sets no bound;
    a limit can only come from the engine that runs the graph). *)
Theorem X16_greedy_model_never_reaches_end
    (state : RASAState) (w : world) (u : RouterUpdate) (fuel : nat) :
  (forall p, snd (llm_with_tools p) <> []) ->
  (forall st w0, exists new w1, tool_node st w0 = (Ok new, w1)) ->
  route_request state = Ok u ->
  upd_intent u = RESEARCH ->
  exists w', graph_run fuel N_START state w = (Ok None, w').
Proof.
  intros Hgreedy Htools Hu Hi.
  destruct fuel as [|[|fuel]]; [by eexists|by eexists|].
  rewrite graph_run_from_start, Hu, Hi. cbn [agent_for].
  apply graph_run_loops; [done|done|by left].
Qed.

(** X17: take the state a run starts from at START (on a thread with a
    checkpoint that is the stored state merged with the caller's input,
    not the input alone).  At every visit the state has the user id of
    that start state and the messages of that start state as a prefix of
    its messages; from the third visit on, its topic and intent are the
    ones the router computed from the last message of the start state,
    not the ones the start state held. *)
Theorem X17_state_keys_along_a_run
    (fuel : nat) (state : RASAState) (w : world) (i : nat)
    (v : node * RASAState) :
  graph_visits fuel N_START state w !! i = Some v ->
  user_id (snd v) = user_id state
  /\ (exists new, messages (snd v) = messages state ++ new)
  /\ ((2 <= i)%nat ->
      exists u,
        route_request state = Ok u
        /\ research_topic (snd v) = upd_research_topic u
        /\ intent (snd v) = Some (upd_intent u)).
Proof.
  intros Hv.
  assert (user_id (snd v) = user_id state
          /\ exists new, messages (snd v) = messages state ++ new) as [H1 H2].
  { apply (visits_invariant llm_with_tools llm tool_node
             (fun x => user_id (snd x) = user_id state
                       /\ exists new, messages (snd x) = messages state ++ new))
      with (fuel := fuel) (n := N_START) (state := state) (w := w) (i := i);
      [|split; [done|exists []; by rewrite app_nil_r]|done].
    intros n st w0 n' st' w' [Hid [new Hmsgs]] Hstep. cbn [snd] in *.
    destruct (step_keys _ _ _ _ _ _ _ _ _ Hstep) as (Hid' & [new' Hm'] & _).
    split; [congruence|]. exists (new ++ new').
    by rewrite Hm', Hmsgs, app_assoc. }
  split; [done|]. split; [done|]. intros Hi.
  destruct fuel as [|[|fuel]]; [done| |].
  { destruct i as [|[|i]]; [lia|lia|].
    revert Hv. rewrite visits_unfold, decide_False by done.
    rewrite step_start. by destruct i. }
  destruct i as [|[|i]]; [lia|lia|].
  revert Hv. rewrite visits_unfold, decide_False by done.
  rewrite step_start, visits_unfold, decide_False by done.
  rewrite step_router. cbn [lookup list_lookup].
  destruct (route_request state) as [u|e]; [|done].
  intros Hv. exists u. split; [done|].
  apply (visits_invariant llm_with_tools llm tool_node
           (fun x => fst x <> N_START /\ fst x <> N_router
                     /\ research_topic (snd x) = upd_research_topic u
                     /\ intent (snd x) = Some (upd_intent u)))
    in Hv; [by destruct Hv as (_ & _ & ? & ?)| |].
  - intros n st w0 n' st' w' (Hn1 & Hn2 & Ht & Hint) Hstep.
    cbn [fst snd] in *.
    destruct (step_keys _ _ _ _ _ _ _ _ _ Hstep)
      as (_ & _ & Hkeep & Hs1 & Hs2).
    destruct (Hkeep Hn2) as [-> ->]. by auto.
  - cbn [fst snd]. destruct u as [[] t]; by repeat split.
Qed.

End GraphRunFacts.


Lemma X12_general_request_ends_after_router_witness :
  run_graph demo_llm_with_tools demo_llm demo_tool_node 3 N_START
    {| messages := [HumanMessage "Hello there"]; user_id := 101;
       research_topic := "Quantum Computing"; intent := None |}
    RESEARCH_BANK
  = (Ok (Some {| messages := [HumanMessage "Hello there"]; user_id := 101;
                 research_topic := "General Inquiry";
                 intent := Some GENERAL |}), RESEARCH_BANK).
Proof.
  apply (X12_general_request_ends_after_router
           demo_llm_with_tools demo_llm demo_tool_node
           {| messages := [HumanMessage "Hello there"]; user_id := 101;
              research_topic := "Quantum Computing"; intent := None |}
           RESEARCH_BANK (HumanMessage "Hello there") 0).
  - reflexivity.
  - intros H. apply RouterFacts.wants_research_iff in H.
    vm_compute in H. discriminate H.
  - intros H. apply RouterFacts.wants_study_iff in H.
    vm_compute in H. discriminate H.
Defined.

Lemma X13_study_request_adds_one_answer_witness :
  exists final c tcs w',
    run_graph demo_llm_with_tools demo_llm demo_tool_node 4 N_START
      {| messages := [HumanMessage study_query]; user_id := 101;
         research_topic := "Quantum Computing"; intent := None |}
      RESEARCH_BANK = (Ok (Some final), w')
    /\ messages final = [HumanMessage study_query] ++ [AIMessage c tcs]
    /\ user_id final = 101
    /\ intent final = Some STUDY
    /\ db w' = db RESEARCH_BANK.
Proof.
  apply (X13_study_request_adds_one_answer
           demo_llm_with_tools demo_llm demo_tool_node
           {| messages := [HumanMessage study_query]; user_id := 101;
              research_topic := "Quantum Computing"; intent := None |}
           RESEARCH_BANK (HumanMessage study_query) 0).
  - reflexivity.
  - intros H. apply RouterFacts.wants_research_iff in H.
    vm_compute in H. discriminate H.
  - apply RouterFacts.wants_study_iff. reflexivity.
Defined.

Lemma X14_research_without_tools_leaves_bank_witness :
  exists c,
    run_graph demo_llm_with_tools demo_llm demo_tool_node 4 N_START
      {| messages := [AIMessage "Hello." [];
                      HumanMessage "Please research on tides"];
         user_id := 101; research_topic := "Quantum Computing";
         intent := None |}
      RESEARCH_BANK
    = (Ok (Some {| messages := [AIMessage "Hello." [];
                                HumanMessage "Please research on tides"]
                               ++ [AIMessage c []];
                   user_id := 101; research_topic := "tides";
                   intent := Some RESEARCH |}), RESEARCH_BANK).
Proof.
  apply (X14_research_without_tools_leaves_bank
           demo_llm_with_tools demo_llm demo_tool_node
           {| messages := [AIMessage "Hello." [];
                           HumanMessage "Please research on tides"];
              user_id := 101; research_topic := "Quantum Computing";
              intent := None |}
           RESEARCH_BANK
           {| upd_intent := RESEARCH; upd_research_topic := "tides" |} 0);
    reflexivity.
Defined.

Lemma X15_no_message_stops_in_router_witness :
  run_graph demo_llm_with_tools demo_llm demo_tool_node 5 N_START
    {| messages := []; user_id := 101;
       research_topic := "Quantum Computing"; intent := None |}
    RESEARCH_BANK
  = (Raise IndexError, RESEARCH_BANK)
  /\ fst <$> visits demo_llm_with_tools demo_llm demo_tool_node 5 N_START
               {| messages := []; user_id := 101;
                  research_topic := "Quantum Computing"; intent := None |}
               RESEARCH_BANK
     = [N_START; N_router].
Proof.
  apply (X15_no_message_stops_in_router
           demo_llm_with_tools demo_llm demo_tool_node
           {| messages := []; user_id := 101;
              research_topic := "Quantum Computing"; intent := None |}
           RESEARCH_BANK 3).
  reflexivity.
Defined.

Lemma X16_greedy_model_never_reaches_end_witness :
  exists w',
    run_graph greedy_llm_with_tools demo_llm idle_tool_node 40 N_START
      demo_state RESEARCH_BANK = (Ok None, w').
Proof.
  apply (X16_greedy_model_never_reaches_end
           greedy_llm_with_tools demo_llm idle_tool_node demo_state
           RESEARCH_BANK
           {| upd_intent := RESEARCH; upd_research_topic := "tides" |} 40).
  - intros p H. discriminate H.
  - intros st w0. eexists _, _. reflexivity.
  - reflexivity.
  - reflexivity.
Defined.

Lemma X17_state_keys_along_a_run_witness :
  exists v,
    visits demo_llm_with_tools demo_llm demo_tool_node 10 N_START
      demo_state RESEARCH_BANK !! 3%nat = Some v
    /\ fst v = N_tool_executor
    /\ user_id (snd v) = 101
    /\ research_topic (snd v) = "tides"
    /\ intent (snd v) = Some RESEARCH.
Proof.
  eexists. split; [vm_compute; reflexivity|]. split; [reflexivity|].
  destruct (X17_state_keys_along_a_run
              demo_llm_with_tools demo_llm demo_tool_node 10 demo_state
              RESEARCH_BANK 3 _ ltac:(vm_compute; reflexivity))
    as (Hid & _ & Hkeys).
  split; [exact Hid|].
  destruct (Hkeys ltac:(lia)) as (u & Hu & Ht & Hi).
  vm_compute in Hu. injection Hu as <-. by split.
Defined.
